(** * Separador de Arquivos e Renomear: the PDF splitter of [app.py]

    A shallow embedding of [PDFSplitter] and of the part of [Application]
    that drives it, followed by the properties of the splitter.

    - Python [int] is [Z]; [//] and [%] are [Z.div] and [Z.modulo] (both
      floor towards minus infinity, as Python does) with the division by
      zero raised explicitly.
    - Python [str] is a list of Unicode code points.
    - Exceptions are values of [outcome]; dialogs, log lines, written files
      and progress updates are recorded, in order, in a trace of [event]s.
    - Python [float] is an IEEE 754 binary64 number as [SpecFloat] gives
      it: 53 bits of precision, exponents up to 1024, every operation
      rounded to the nearest, ties to even. *)

From Stdlib Require Import ZArith NArith List String Ascii Bool Lia.
From Stdlib Require Import QArith Qround Qpower Lqa DecimalString.
From Stdlib Require Import SpecFloat.
Import ListNotations.

Local Open Scope Z_scope.

(** ** Python values *)

Module Py.

(** A code point of a Python [str], and the [str] itself. *)
Definition char : Type := N.
Definition str : Type := list char.

(** A string literal of the source (ASCII text). *)
Definition lit (s : string) : str :=
  List.map N_of_ascii (list_ascii_of_string s).

Definition char_in (c : char) (cs : list char) : bool :=
  existsb (N.eqb c) cs.

(** The exceptions that the modelled code can raise.  [Failure] stands for
    whatever the outside world raises (an unreadable workbook, a malformed
    PDF, a write refused by the operating system), with its text. *)
Inductive exception : Type :=
| ZeroDivisionError
| IndexError
| ValueError
| OverflowError
| Failure (cause : str).

Inductive outcome (A : Type) : Type :=
| Return (a : A)
| Raise (e : exception).
Arguments Return {A} a.
Arguments Raise {A} e.

(** [a // b] *)
Definition floordiv (a b : Z) : outcome Z :=
  if b =? 0 then Raise ZeroDivisionError else Return (a / b).

(** [a % b] *)
Definition modulo (a b : Z) : outcome Z :=
  if b =? 0 then Raise ZeroDivisionError else Return (a mod b).

(** A Python [float]: a binary64 number. *)
Definition float : Type := spec_float.

(** An [int] as the operand of a float operation: the integer itself as
    mantissa, with exponent 0, whatever its size.  The operation rounds. *)
Definition int_operand (z : Z) : float :=
  match z with
  | Z0 => S754_zero false
  | Zpos p => S754_finite false p 0
  | Zneg p => S754_finite true p 0
  end.

(** [a / b] on two [int]s: the quotient of the two integers rounded once
    to the nearest float; [OverflowError] when it is out of range. *)
Definition truediv (a b : Z) : outcome float :=
  if b =? 0 then Raise ZeroDivisionError
  else
    match SFdiv 53 1024 (int_operand a) (int_operand b) with
    | S754_infinity _ => Raise OverflowError
    | q => Return q
    end.

(** [float(n)], the conversion applied to an [int] operand that meets a
    [float]. *)
Definition float_of_int (n : Z) : outcome float :=
  match binary_normalize 53 1024 n 0 false with
  | S754_infinity _ => Raise OverflowError
  | x => Return x
  end.

(** [x * y] on two [float]s. *)
Definition float_mul (x y : float) : float := SFmul 53 1024 x y.

(** [x < y] on two [float]s. *)
Definition float_lt (x y : float) : bool := SFltb x y.

(** [100.0] *)
Definition hundred : float := binary_normalize 53 1024 100 0 false.

(** [len(range(start, stop, step))] for a non-zero step, as CPython
    computes it. *)
Definition range_length (start stop step : Z) : Z :=
  if 0 <? step then
    if start <? stop then (stop - start - 1) / step + 1 else 0
  else
    if stop <? start then (start - stop - 1) / (- step) + 1 else 0.

(** [range(start, stop, step)], as the list of the values it yields. *)
Definition range (start stop step : Z) : outcome (list Z) :=
  if step =? 0 then Raise ValueError
  else Return (List.map (fun k => start + Z.of_nat k * step)
                        (seq 0 (Z.to_nat (range_length start stop step)))).

Definition len {A : Type} (l : list A) : Z := Z.of_nat (List.length l).

(** [l[i]]: negative indices count from the end, anything else out of
    range raises [IndexError]. *)
Definition getitem {A : Type} (l : list A) (i : Z) : outcome A :=
  let j := if i <? 0 then i + len l else i in
  if j <? 0 then Raise IndexError
  else match nth_error l (Z.to_nat j) with
       | Some a => Return a
       | None => Raise IndexError
       end.

(** [c.isspace()] for one code point: the characters [str.strip()]
    removes. *)
Definition isspace (c : char) : bool :=
  (((9 <=? c) && (c <=? 13)) || ((28 <=? c) && (c <=? 32))
   || (c =? 133) || (c =? 160) || (c =? 5760)
   || ((8192 <=? c) && (c <=? 8202))
   || (c =? 8232) || (c =? 8233) || (c =? 8239) || (c =? 8287)
   || (c =? 12288))%N.

Fixpoint lstrip (s : str) : str :=
  match s with
  | [] => []
  | c :: s' => if isspace c then lstrip s' else s
  end.

Definition rstrip (s : str) : str := rev (lstrip (rev s)).

(** [s.strip()] *)
Definition strip (s : str) : str := rstrip (lstrip s).

(** [s.isdigit()], for a field typed in ASCII: non-empty and made of the
    digits 0 to 9 only. *)
Definition is_ascii_digit (c : char) : bool := ((48 <=? c) && (c <=? 57))%N.

Definition isdigit (s : str) : bool :=
  match s with
  | [] => false
  | _ => forallb is_ascii_digit s
  end.

(** [int(s)] for a string of decimal digits; [ValueError] otherwise. *)
Fixpoint int_digits (acc : Z) (s : str) : outcome Z :=
  match s with
  | [] => Return acc
  | c :: s' =>
      if is_ascii_digit c
      then int_digits (10 * acc + (Z.of_N c - 48)) s'
      else Raise ValueError
  end.

(** CPython refuses to convert a decimal text of more than 4300 digits
    ([sys.int_info.default_max_str_digits]) and raises ValueError. *)
Definition max_str_digits : Z := 4300.

Definition int (s : str) : outcome Z :=
  match s with
  | [] => Raise ValueError
  | _ => if max_str_digits <? len s then Raise ValueError else int_digits 0 s
  end.

End Py.

(** ** The regular expression of [sanitize_filename] *)

Module Re.
Import Py.

(** [re.sub('[' + cls + ']', repl, s)]: the pattern is one character
    class, so the scan looks at one character at a time, replaces it by
    [repl] when it is in the class and copies it otherwise. *)
Fixpoint sub_class (cls : list char) (repl : str) (s : str) : str :=
  match s with
  | [] => []
  | c :: s' =>
      if char_in c cls then repl ++ sub_class cls repl s'
      else c :: sub_class cls repl s'
  end.

End Re.

(** ** What the program reads and what it does to the outside *)

Module Env.
Import Py.

(** A page object of the source document; only its identity matters. *)
Inductive page : Type := PageObject (id : nat).

(** A cell of the workbook as [pd.read_excel] delivers it: [None] is a
    null (NaN) cell, [Some s] a value whose [str()] is [s]. *)
Definition cell : Type := option str.

(** The [DataFrame]: how many columns it has and the rows of its first
    column ([len(df)] is the number of rows). *)
Record DataFrame : Type := {
  columns : nat;
  column0 : list cell
}.

(** The texts shown to the operator, with the values formatted in. *)
Inductive message : Type :=
| MsgPlanilhaVazia                          (* A planilha esta vazia. *)
| MsgCelulasVazias                          (* Existem celulas vazias na primeira coluna da planilha. *)
| MsgMenosNomes (nomes arquivos : Z)        (* A planilha contem menos nomes (..) do que o numero de arquivos que serao gerados (..). *)
| MsgErroSalvar (nome : str) (e : exception) (* Erro ao salvar arquivo ..: .. *)
| MsgErroProcessamento (e : exception)      (* Erro durante o processamento: .. *)
| MsgCamposVazios                           (* Todos os campos devem ser preenchidos. *)
| MsgNaoNumerico                            (* O numero de paginas deve ser um valor numerico. *)
| MsgConcluido                              (* Processo concluido com sucesso! *)
| MsgOcorreuErro.                           (* Ocorreu um erro durante o processamento. *)

(** The lines written to [app.log]. *)
Inductive log_line : Type :=
| LogCancelada                              (* Operacao cancelada pelo usuario. *)
| LogCriado (nome : str)                    (* Arquivo .. criado com sucesso. *)
| LogErroSalvar (nome : str) (e : exception)
| LogConcluido                              (* Processo concluido com sucesso. *)
| LogErroProcessamento (e : exception).

Inductive event : Type :=
| ShowError (m : message)                   (* messagebox.showerror *)
| ShowInfo (m : message)                    (* messagebox.showinfo *)
| LogInfo (l : log_line)                    (* logging.info *)
| LogError (l : log_line)                   (* logging.error *)
| WriteFile (folder nome : str) (pages : list page)
                                            (* a document written at os.path.join(folder, nome) *)
| Progress (value : float).                   (* progress_callback(value) *)

(** The outside world of one run: what the two input files hold, whether
    a write succeeds, and when the operator presses Cancelar.
    [cancel_click n] tells whether the handler [cancelar_operacao] has run
    by the time the loop polls the flag for the [n]-th time (from 0), that
    is, after [n] chunks were completed. *)
Record World : Type := {
  read_excel : str -> outcome DataFrame;
  PdfReader : str -> outcome (list page);
  write : str -> str -> list page -> outcome unit;
  cancel_click : nat -> bool
}.

End Env.

(** ** Statements of the program: state, trace and exceptions *)

Module Stmt.
Import Py Env.

(** The fields of the [PDFSplitter] object. *)
Record SplitterObject : Type := { cancel_operation : bool }.

(** A statement runs from the state of the splitter object; it returns or
    raises, leaves a state, and appends events to the trace. *)
Definition M (A : Type) : Type :=
  SplitterObject -> outcome A * SplitterObject * list event.

Definition ret {A : Type} (a : A) : M A := fun s => (Return a, s, []).

Definition bind {A B : Type} (m : M A) (f : A -> M B) : M B :=
  fun s =>
    match m s with
    | (Return a, s1, t1) =>
        let '(r, s2, t2) := f a s1 in (r, s2, t1 ++ t2)
    | (Raise e, s1, t1) => (Raise e, s1, t1)
    end.

(** [try: m except Exception as e: h e] *)
Definition try_except {A : Type} (m : M A) (h : exception -> M A) : M A :=
  fun s =>
    match m s with
    | (Return a, s1, t1) => (Return a, s1, t1)
    | (Raise e, s1, t1) =>
        let '(r, s2, t2) := h e s1 in (r, s2, t1 ++ t2)
    end.

Definition lift {A : Type} (o : outcome A) : M A := fun s => (o, s, []).

Definition emit (ev : event) : M unit := fun s => (Return tt, s, [ev]).

Definition get_cancel_operation : M bool :=
  fun s => (Return (cancel_operation s), s, []).

Definition set_cancel_operation (b : bool) : M unit :=
  fun _ => (Return tt, {| cancel_operation := b |}, []).

(** The operator's side, between two chunks: the Cancelar handler, when it
    has been triggered, sets the flag. *)
Definition operator (w : World) (n : nat) : M unit :=
  if cancel_click w n then set_cancel_operation true else ret tt.

(** A [for] loop whose body may [return] from the enclosing function:
    the body answers [Some b] for [return b] and [None] to go on.  The
    iterations are counted from [n]. *)
Fixpoint for_each (body : nat -> Z -> M (option bool)) (n : nat) (indices : list Z)
  : M (option bool) :=
  match indices with
  | [] => ret None
  | i :: rest =>
      bind (body n i) (fun r =>
        match r with
        | Some b => ret (Some b)
        | None => for_each body (S n) rest
        end)
  end.

End Stmt.

Declare Scope stmt_scope.
Delimit Scope stmt_scope with stmt.
Notation "x <- m ;; k" := (Stmt.bind m (fun x => k))
  (at level 61, m at next level, right associativity) : stmt_scope.
Notation "m ;;; k" := (Stmt.bind m (fun _ => k))
  (at level 61, right associativity) : stmt_scope.

(** ** class PDFSplitter *)

Module PDFSplitter.
Import Py Env Stmt.
Local Open Scope stmt_scope.

(** [df.empty]: some axis has length zero. *)
Definition empty (df : DataFrame) : bool :=
  (Nat.eqb (columns df) 0) || (Nat.eqb (List.length (column0 df)) 0).

(** [df.iloc[:, 0].isnull().any()] *)
Definition isnull (c : cell) : bool :=
  match c with None => true | Some _ => false end.

Definition column0_isnull_any (df : DataFrame) : bool :=
  existsb isnull (column0 df).

(** [df.iloc[row, 0]] *)
Definition iloc0 (df : DataFrame) (row : Z) : outcome cell :=
  if Nat.eqb (columns df) 0 then Raise IndexError
  else getitem (column0 df) row.

(** [str(c)] of a cell. *)
Definition str_of_cell (c : cell) : str :=
  match c with
  | Some s => s
  | None => lit "nan"
  end.

Definition validate_excel_data (df : DataFrame) : M bool :=
  if empty df then
    emit (ShowError MsgPlanilhaVazia) ;;;
    ret false
  else if column0_isnull_any df then
    emit (ShowError MsgCelulasVazias) ;;;
    ret false
  else ret true.

(** The character class of the pattern: less-than, greater-than, colon,
    double quote, slash, backslash, vertical bar, question mark and
    asterisk. *)
Definition invalid_chars : list char :=
  [60; 62; 58; 34; 47; 92; 124; 63; 42]%N.

Definition sanitize_filename (filename : str) : str :=
  let sanitized := Re.sub_class invalid_chars [] filename in
  strip sanitized.

(** The inner loop: [writer.add_page(reader.pages[j])] for each [j]. *)
Fixpoint add_pages (reader : list page) (js : list Z) (writer : list page)
  : outcome (list page) :=
  match js with
  | [] => Return writer
  | j :: js' =>
      match getitem reader j with
      | Return pg => add_pages reader js' (writer ++ [pg])
      | Raise e => Raise e
      end
  end.

(** [novo_nome], the name given to the chunk that starts at page [i]. *)
Definition novo_nome (df : DataFrame) (i paginas_por_arquivo : Z) : outcome str :=
  match floordiv i paginas_por_arquivo with
  | Return row =>
      match iloc0 df row with
      | Return c => Return (sanitize_filename (str_of_cell c) ++ lit ".pdf")
      | Raise e => Raise e
      end
  | Raise e => Raise e
  end.

(** The body of the loop over the blocks of pages, for the block that
    starts at page [i]; [n] counts the iterations. *)
Definition bloco (w : World) (reader : list page) (df : DataFrame)
    (paginas_por_arquivo total_paginas total_steps : Z) (output_folder : str)
    (n : nat) (i : Z) : M (option bool) :=
  operator w n ;;;
  cancelled <- get_cancel_operation ;;
  if cancelled then
    emit (LogInfo LogCancelada) ;;;
    ret (Some false)
  else
    js <- lift (range i (Z.min (i + paginas_por_arquivo) total_paginas) 1) ;;
    writer <- lift (add_pages reader js []) ;;
    nome <- lift (novo_nome df i paginas_por_arquivo) ;;
    saved <- try_except
               (lift (write w output_folder nome writer) ;;;
                emit (WriteFile output_folder nome writer) ;;;
                emit (LogInfo (LogCriado nome)) ;;;
                ret true)
               (fun e =>
                  emit (LogError (LogErroSalvar nome e)) ;;;
                  emit (ShowError (MsgErroSalvar nome e)) ;;;
                  ret false) ;;
    if negb saved then ret (Some false)
    else
      row <- lift (floordiv i paginas_por_arquivo) ;;
      fraction <- lift (truediv (row + 1) total_steps) ;;
      factor <- lift (float_of_int 100) ;;
      emit (Progress (float_mul fraction factor)) ;;;
      ret None.

(** [(total_paginas // paginas_por_arquivo)
     + (1 if total_paginas % paginas_por_arquivo != 0 else 0)] *)
Definition total_steps (total_paginas paginas_por_arquivo : Z) : outcome Z :=
  match floordiv total_paginas paginas_por_arquivo with
  | Return quotient =>
      match modulo total_paginas paginas_por_arquivo with
      | Return remainder =>
          Return (quotient + (if negb (remainder =? 0) then 1 else 0))
      | Raise e => Raise e
      end
  | Raise e => Raise e
  end.

(** The value [total_steps] returns when the divisor is not zero. *)
Definition total_steps_value (total_paginas paginas_por_arquivo : Z) : Z :=
  total_paginas / paginas_por_arquivo
  + (if negb (total_paginas mod paginas_por_arquivo =? 0) then 1 else 0).

Definition dividir_pdf (w : World) (pdf_path excel_path : str)
    (paginas_por_arquivo : Z) (output_folder : str) : M bool :=
  try_except
    (df <- lift (read_excel w excel_path) ;;
     valid <- validate_excel_data df ;;
     if negb valid then ret false
     else
       reader <- lift (PdfReader w pdf_path) ;;
       let total_paginas := len reader in
       total_steps <- lift (total_steps total_paginas paginas_por_arquivo) ;;
       if total_steps >? len (column0 df) then
         emit (ShowError (MsgMenosNomes (len (column0 df)) total_steps)) ;;;
         ret false
       else
         starts <- lift (range 0 total_paginas paginas_por_arquivo) ;;
         returned <- for_each
                       (bloco w reader df paginas_por_arquivo total_paginas
                              total_steps output_folder)
                       0%nat starts ;;
         match returned with
         | Some b => ret b
         | None =>
             emit (LogInfo LogConcluido) ;;;
             ret true
         end)
    (fun e =>
       emit (LogError (LogErroProcessamento e)) ;;;
       emit (ShowError (MsgErroProcessamento e)) ;;;
       ret false).

End PDFSplitter.

(** ** class Application (the part that drives the splitter) *)

Module Application.
Import Py Env Stmt.
Local Open Scope stmt_scope.

(** The four entry fields, as the text typed in them. *)
Record Fields : Type := {
  pdf_path : str;
  excel_path : str;
  output_folder : str;
  paginas_por_arquivo : str
}.

(** Truth value of a [str]: non-empty. *)
Definition truthy (s : str) : bool :=
  match s with [] => false | _ => true end.

Definition validar_campos (f : Fields) : M bool :=
  if negb (forallb truthy [pdf_path f; excel_path f; output_folder f]) then
    emit (ShowError MsgCamposVazios) ;;;
    ret false
  else if negb (isdigit (paginas_por_arquivo f)) then
    emit (ShowError MsgNaoNumerico) ;;;
    ret false
  else ret true.

Definition iniciar_divisao (w : World) (f : Fields) : M unit :=
  ok <- validar_campos f ;;
  if negb ok then ret tt
  else
    set_cancel_operation false ;;;
    paginas <- lift (int (paginas_por_arquivo f)) ;;
    success <- PDFSplitter.dividir_pdf w (pdf_path f) (excel_path f)
                 paginas (output_folder f) ;;
    if success then emit (ShowInfo MsgConcluido)
    else
      cancelled <- get_cancel_operation ;;
      if negb cancelled then emit (ShowError MsgOcorreuErro)
      else ret tt.

End Application.

(** ** Reading a trace *)

Module Trace.
Import Py Env.

(** The documents written, in order: folder, name and pages. *)
Fixpoint written (t : list event) : list (str * str * list page) :=
  match t with
  | [] => []
  | WriteFile folder nome pages :: t' => (folder, nome, pages) :: written t'
  | _ :: t' => written t'
  end.

(** The page sequences of the documents written, in order. *)
Definition chunks (t : list event) : list (list page) :=
  List.map snd (written t).

(** The values passed to the progress callback, in order. *)
Fixpoint progress (t : list event) : list float :=
  match t with
  | [] => []
  | Progress v :: t' => v :: progress t'
  | _ :: t' => progress t'
  end.

(** The dialogs shown to the operator, in order. *)
Fixpoint dialogs (t : list event) : list event :=
  match t with
  | [] => []
  | ShowError m :: t' => ShowError m :: dialogs t'
  | ShowInfo m :: t' => ShowInfo m :: dialogs t'
  | _ :: t' => dialogs t'
  end.

(** The lines of the log, in order. *)
Fixpoint logged (t : list event) : list log_line :=
  match t with
  | [] => []
  | LogInfo l :: t' => l :: logged t'
  | LogError l :: t' => l :: logged t'
  | _ :: t' => logged t'
  end.

End Trace.

(** ** The words of the specification *)

Module Spec.
Import Py Env.

(** ceil(totalPages / pagesPerFile), on the rationals. *)
Definition required_chunk_count (total_pages pages_per_file : Z) : Z :=
  Qceiling (inject_Z total_pages / inject_Z pages_per_file).

(** The pages [[from, to)] of a document, in original order. *)
Definition page_range (pages : list page) (from to : Z) : list page :=
  firstn (Z.to_nat (to - from)) (skipn (Z.to_nat from) pages).

(** The pages assigned to the chunk of index [i]. *)
Definition chunk_pages (pages : list page) (pages_per_file : Z) (i : nat)
  : list page :=
  page_range pages (Z.of_nat i * pages_per_file)
             (Z.min ((Z.of_nat i + 1) * pages_per_file) (len pages)).

(** (i + 1) / requiredChunkCount * 100, each operation rounded to the
    nearest float. *)
Definition progress_after (required : Z) (i : nat) : float :=
  float_mul (SFdiv 53 1024 (int_operand (Z.of_nat i + 1))
                           (int_operand required))
            hundred.

(** The characters illegal in filenames: the seven written out, the
    double quote (code point 34) and the backslash (code point 92). *)
Definition illegal : list char :=
  lit "<>:/|?*" ++ [34; 92]%N.

(** The name of the chunk of index [i]: the sanitized text of the [i]-th
    row, followed by the extension. *)
Definition chunk_name (df : DataFrame) (i : nat) : str :=
  PDFSplitter.sanitize_filename
    (PDFSplitter.str_of_cell (nth i (column0 df) None)) ++ lit ".pdf".

(** The two dialogs that report an invalid name source. *)
Definition InvalidInput (m : message) : Prop :=
  m = MsgPlanilhaVazia \/ m = MsgCelulasVazias.

(** What a completed chunk of index [i] leaves in the trace: the document
    written, its log line and the progress value. *)
Definition chunk_done (reader : list page) (df : DataFrame)
    (pages_per_file required : Z) (output_dir : str) (i : nat) : list event :=
  [WriteFile output_dir (chunk_name df i) (chunk_pages reader pages_per_file i);
   LogInfo (LogCriado (chunk_name df i));
   Progress (progress_after required i)].

(** The trace of the [m] chunks completed from index [n] on. *)
Definition chunks_done (reader : list page) (df : DataFrame)
    (pages_per_file required : Z) (output_dir : str) (n m : nat) : list event :=
  List.concat
    (List.map (chunk_done reader df pages_per_file required output_dir)
              (seq n m)).

(** How a run of the loop over the chunks [n], ..., [n + m - 1] can end:
    all of them completed, or the run stopped before one of them, on a
    cancellation or on a failed write. *)
Inductive loop_end (w : World) (reader : list page) (df : DataFrame)
    (pages_per_file required : Z) (output_dir : str) (n m : nat)
  : outcome (option bool) * Stmt.SplitterObject * list event -> Prop :=
| loop_finished s' :
    loop_end w reader df pages_per_file required output_dir n m
      (Return None, s',
       chunks_done reader df pages_per_file required output_dir n m)
| loop_cancelled k s' :
    (k < m)%nat -> Stmt.cancel_operation s' = true ->
    loop_end w reader df pages_per_file required output_dir n m
      (Return (Some false), s',
       chunks_done reader df pages_per_file required output_dir n k
       ++ [LogInfo LogCancelada])
| loop_write_failed k s' e :
    (k < m)%nat ->
    write w output_dir (chunk_name df (n + k))
          (chunk_pages reader pages_per_file (n + k)) = Raise e ->
    loop_end w reader df pages_per_file required output_dir n m
      (Return (Some false), s',
       chunks_done reader df pages_per_file required output_dir n k
       ++ [LogError (LogErroSalvar (chunk_name df (n + k)) e);
           ShowError (MsgErroSalvar (chunk_name df (n + k)) e)]).

(** A sequence of floats that increases strictly. *)
Fixpoint strictly_increasing (l : list float) : Prop :=
  match l with
  | [] => True
  | x :: l' =>
      match l' with
      | [] => True
      | y :: _ => float_lt x y = true /\ strictly_increasing l'
      end
  end.

End Spec.

(** ** Sample runs *)

Module Sample.
Import Py Env Stmt.

Definition document (n : nat) : list page := List.map PageObject (seq 0 n).

Definition names (l : list string) : DataFrame :=
  {| columns := 1; column0 := List.map (fun s => Some (lit s)) l |}.

(** A world with a document of [n] pages and the given names, where every
    write succeeds and Cancelar is pressed as [click] says. *)
Definition world (n : nat) (l : list string) (click : nat -> bool) : World :=
  {| read_excel := fun _ => Return (names l);
     PdfReader := fun _ => Return (document n);
     write := fun _ _ _ => Return tt;
     cancel_click := click |}.

Definition never : nat -> bool := fun _ => false.
Definition after (k : nat) : nat -> bool := fun n => Nat.leb k n.

Definition idle : SplitterObject := {| cancel_operation := false |}.

Definition fields (paginas : string) : Application.Fields :=
  {| Application.pdf_path := lit "doc.pdf";
     Application.excel_path := lit "nomes.xlsx";
     Application.output_folder := lit "out";
     Application.paginas_por_arquivo := lit paginas |}.

End Sample.

(** ** The rest of class Application: Cancelar, dropped files, the window *)

Module Janela.
Import Py Env Stmt.

(** [cancelar_operacao], the handler of the Cancelar button. *)
Definition cancelar_operacao : M unit := set_cancel_operation true.

(** [s.startswith(prefix)] *)
Fixpoint startswith (s prefix : str) {struct prefix} : bool :=
  match prefix with
  | [] => true
  | c :: prefix' =>
      match s with
      | [] => false
      | d :: s' => N.eqb d c && startswith s' prefix'
      end
  end.

(** [s.endswith(suffix)] *)
Definition endswith (s suffix : str) : bool :=
  startswith (rev s) (rev suffix).

(** [arrastar_arquivo]: a file dropped on the window, [data] being
    [event.data]; the entry fields before and after. *)
Definition arrastar_arquivo (data : str) (f : Application.Fields)
  : Application.Fields :=
  let caminho := strip data in
  if endswith caminho (lit ".pdf") then
    {| Application.pdf_path := caminho;
       Application.excel_path := Application.excel_path f;
       Application.output_folder := Application.output_folder f;
       Application.paginas_por_arquivo := Application.paginas_por_arquivo f |}
  else if endswith caminho (lit ".xlsx") then
    {| Application.pdf_path := Application.pdf_path f;
       Application.excel_path := caminho;
       Application.output_folder := Application.output_folder f;
       Application.paginas_por_arquivo := Application.paginas_por_arquivo f |}
  else f.

(** An [int] formatted in an f-string: its decimal writing. *)
Definition str_of_int (n : Z) : str :=
  lit (NilZero.string_of_int (Z.to_int n)).

(** The geometry string [f"{largura}x{altura}+{x}+{y}"]. *)
Definition geometry (largura altura x y : Z) : str :=
  str_of_int largura ++ lit "x" ++ str_of_int altura
  ++ lit "+" ++ str_of_int x ++ lit "+" ++ str_of_int y.

(** [centralizar_janela]: from the size of the window and of the screen
    (the four [winfo_] values) to the geometry it requests. *)
Definition centralizar_janela (largura altura screenwidth screenheight : Z)
  : str :=
  let x := screenwidth / 2 - largura / 2 in
  let y := screenheight / 2 - altura / 2 in
  geometry largura altura x y.

End Janela.

(** ** The ways a run of [dividir_pdf] ends *)

Module Outcome.
Import Py Env Stmt.

Inductive run_end (w : World) (pdf excel out : str) (p : Z) (s : SplitterObject)
  : outcome bool * SplitterObject * list event -> Prop :=
| end_exception e :
    run_end w pdf excel out p s
      (Return false, s,
       [LogError (LogErroProcessamento e); ShowError (MsgErroProcessamento e)])
| end_invalid m :
    Spec.InvalidInput m ->
    run_end w pdf excel out p s (Return false, s, [ShowError m])
| end_few_names df reader :
    read_excel w excel = Return df ->
    PdfReader w pdf = Return reader ->
    len (column0 df) < PDFSplitter.total_steps_value (len reader) p ->
    run_end w pdf excel out p s
      (Return false, s,
       [ShowError (MsgMenosNomes (len (column0 df))
                                 (PDFSplitter.total_steps_value (len reader) p))])
| end_no_chunk :
    p < 0 ->
    run_end w pdf excel out p s (Return true, s, [LogInfo LogConcluido])
| end_completed df reader :
    0 < p ->
    read_excel w excel = Return df ->
    PdfReader w pdf = Return reader ->
    run_end w pdf excel out p s
      (Return true, s,
       Spec.chunks_done reader df p
         (PDFSplitter.total_steps_value (len reader) p) out 0
         (Z.to_nat (PDFSplitter.total_steps_value (len reader) p))
       ++ [LogInfo LogConcluido])
| end_cancelled df reader k s' :
    0 < p ->
    read_excel w excel = Return df ->
    PdfReader w pdf = Return reader ->
    (k < Z.to_nat (PDFSplitter.total_steps_value (len reader) p))%nat ->
    cancel_operation s' = true ->
    run_end w pdf excel out p s
      (Return false, s',
       Spec.chunks_done reader df p
         (PDFSplitter.total_steps_value (len reader) p) out 0 k
       ++ [LogInfo LogCancelada])
| end_write_failed df reader k e :
    0 < p ->
    read_excel w excel = Return df ->
    PdfReader w pdf = Return reader ->
    (k < Z.to_nat (PDFSplitter.total_steps_value (len reader) p))%nat ->
    write w out (Spec.chunk_name df k) (Spec.chunk_pages reader p k) = Raise e ->
    run_end w pdf excel out p s
      (Return false, s,
       Spec.chunks_done reader df p
         (PDFSplitter.total_steps_value (len reader) p) out 0 k
       ++ [LogError (LogErroSalvar (Spec.chunk_name df k) e);
           ShowError (MsgErroSalvar (Spec.chunk_name df k) e)]).

End Outcome.

(** ** The accuracy of a float operation

    Used to state how far a rounded result is from the exact one. *)

Module Binary64.

(** The relative error of one rounding is at most one unit in the last of
    the 53 places. *)
Definition ulp_bound : Q := 1 # (2 ^ 52).

End Binary64.

(** * Properties *)

Import Py Env Stmt.

(** ** Strings: [re.sub] on a character class and [strip] *)

Section Strings.

Lemma sub_class_filter (cls : list char) (s : str) :
  Re.sub_class cls [] s = filter (fun c => negb (char_in c cls)) s.
Proof.
  induction s as [|c s IH]; simpl; [reflexivity|].
  destruct (char_in c cls); simpl; now rewrite IH.
Qed.

(** The class of the pattern holds the same characters as the set the
    specification lists. *)
Lemma illegal_invalid_chars (c : char) :
  char_in c Spec.illegal = char_in c PDFSplitter.invalid_chars.
Proof.
  unfold char_in, Spec.illegal, PDFSplitter.invalid_chars.
  change (lit "<>:/|?*") with [60; 62; 58; 47; 124; 63; 42]%N.
  cbn [existsb app].
  repeat match goal with
         | |- context [N.eqb c ?x] => destruct (N.eqb c x)
         end; reflexivity.
Qed.

Lemma lstrip_split (s : str) :
  exists l, s = l ++ lstrip s /\ forallb isspace l = true.
Proof.
  induction s as [|c s [l [E F]]]; simpl.
  - exists []. now split.
  - destruct (isspace c) eqn:Hc.
    + exists (c :: l). simpl. rewrite Hc, F. split; [now f_equal|reflexivity].
    + exists []. now split.
Qed.

Lemma lstrip_head (s : str) (c : char) (rest : str) :
  lstrip s = c :: rest -> isspace c = false.
Proof.
  induction s as [|d s IH]; simpl; [discriminate|].
  destruct (isspace d) eqn:Hd; [exact IH|].
  intros E. injection E as -> _. exact Hd.
Qed.

Lemma lstrip_fixed (s : str) :
  (forall c rest, s = c :: rest -> isspace c = false) -> lstrip s = s.
Proof.
  destruct s as [|c s]; simpl; [reflexivity|].
  intros H. now rewrite (H c s eq_refl).
Qed.

Lemma lstrip_idempotent (s : str) : lstrip (lstrip s) = lstrip s.
Proof.
  apply lstrip_fixed. intros c rest. apply lstrip_head.
Qed.

Lemma rstrip_split (s : str) :
  exists r, s = rstrip s ++ r /\ forallb isspace r = true.
Proof.
  unfold rstrip. destruct (lstrip_split (rev s)) as [l [E F]].
  exists (rev l). split.
  - rewrite <- rev_app_distr, <- E. now rewrite rev_involutive.
  - rewrite forallb_forall in *. intros x Hx. apply F. now apply in_rev.
Qed.

Lemma rstrip_last (s : str) (c : char) (rest : str) :
  rstrip s = rest ++ [c] -> isspace c = false.
Proof.
  unfold rstrip. intros E.
  apply (f_equal (@rev char)) in E.
  rewrite rev_involutive, rev_app_distr in E. simpl in E.
  exact (lstrip_head _ _ _ E).
Qed.

Lemma rstrip_idempotent (s : str) : rstrip (rstrip s) = rstrip s.
Proof.
  unfold rstrip. now rewrite rev_involutive, lstrip_idempotent.
Qed.

(** The head of a stripped string is the head of its left-stripped
    part, hence not a space. *)
Lemma strip_head (s : str) (c : char) (rest : str) :
  strip s = c :: rest -> isspace c = false.
Proof.
  unfold strip. intros E.
  destruct (rstrip_split (lstrip s)) as [r [Er _]].
  rewrite E in Er. simpl in Er.
  exact (lstrip_head _ _ _ Er).
Qed.

Lemma strip_last (s : str) (c : char) (rest : str) :
  strip s = rest ++ [c] -> isspace c = false.
Proof. unfold strip. apply rstrip_last. Qed.

Lemma strip_split (s : str) :
  exists l r, s = l ++ strip s ++ r
              /\ forallb isspace l = true /\ forallb isspace r = true.
Proof.
  destruct (lstrip_split s) as [l [El Fl]].
  destruct (rstrip_split (lstrip s)) as [r [Er Fr]].
  exists l, r. unfold strip. rewrite <- Er. now repeat split.
Qed.

Lemma strip_idempotent (s : str) : strip (strip s) = strip s.
Proof.
  unfold strip at 1.
  rewrite (lstrip_fixed (strip s)) by (intros c rest; apply strip_head).
  unfold strip. apply rstrip_idempotent.
Qed.

Lemma strip_incl (s : str) (c : char) : In c (strip s) -> In c s.
Proof.
  destruct (strip_split s) as [l [r [E _]]]. intros H.
  rewrite E. apply in_or_app. right. apply in_or_app. now left.
Qed.

Lemma filter_fixed {A : Type} (f : A -> bool) (l : list A) :
  (forall x, In x l -> f x = true) -> filter f l = l.
Proof.
  induction l as [|a l IH]; simpl; [reflexivity|].
  intros H. rewrite (H a (or_introl eq_refl)).
  f_equal. apply IH. intros x Hx. apply H. now right.
Qed.

End Strings.

(** ** [sanitize_filename] *)

(** C10: the filename sanitization is idempotent: sanitizing a sanitized
    name changes nothing. *)
Theorem sanitize_filename_idempotent (s : str) :
  PDFSplitter.sanitize_filename (PDFSplitter.sanitize_filename s)
  = PDFSplitter.sanitize_filename s.
Proof.
  unfold PDFSplitter.sanitize_filename.
  rewrite !sub_class_filter.
  set (keep := fun c => negb (char_in c PDFSplitter.invalid_chars)).
  rewrite (filter_fixed keep (strip (filter keep s))).
  - apply strip_idempotent.
  - intros x Hx. apply strip_incl in Hx.
    apply filter_In in Hx. exact (proj2 Hx).
Qed.

(** C5: the resolved output filename.  The sanitized name is what is left
    of the name once every occurrence of the nine characters is removed and
    the whitespace around the rest is cut off: the kept characters are some
    whitespace, the sanitized name, and some whitespace, and the sanitized
    name neither starts nor ends with whitespace.  The name of a chunk is
    the sanitized text of its cell followed by ".pdf", and "Report/Q1?"
    resolves to "ReportQ1.pdf". *)
Theorem resolved_filename :
  (forall s : str,
      let kept := filter (fun c => negb (char_in c Spec.illegal)) s in
      exists l r,
        kept = l ++ PDFSplitter.sanitize_filename s ++ r
        /\ forallb isspace l = true /\ forallb isspace r = true
        /\ (forall c rest, PDFSplitter.sanitize_filename s = c :: rest ->
                           isspace c = false)
        /\ (forall c rest, PDFSplitter.sanitize_filename s = rest ++ [c] ->
                           isspace c = false))
  /\ (forall df i p row c,
         floordiv i p = Return row ->
         PDFSplitter.iloc0 df row = Return c ->
         PDFSplitter.novo_nome df i p
         = Return (PDFSplitter.sanitize_filename (PDFSplitter.str_of_cell c)
                   ++ lit ".pdf"))
  /\ PDFSplitter.sanitize_filename (lit "Report/Q1?") = lit "ReportQ1"
  /\ PDFSplitter.novo_nome (Sample.names ["Report/Q1?"%string]) 0 1
     = Return (lit "ReportQ1.pdf").
Proof.
  split; [|split; [|split; reflexivity]].
  - intros s kept.
    assert (Ek : kept = Re.sub_class PDFSplitter.invalid_chars [] s).
    { rewrite sub_class_filter. apply filter_ext. intros c.
      now rewrite illegal_invalid_chars. }
    unfold PDFSplitter.sanitize_filename. rewrite <- Ek.
    destruct (strip_split kept) as [l [r [E [Fl Fr]]]].
    exists l, r. repeat split; try assumption.
    + intros c rest. apply strip_head.
    + intros c rest. apply strip_last.
  - intros df i p row c Hrow Hc. unfold PDFSplitter.novo_nome.
    now rewrite Hrow, Hc.
Qed.

(** ** The number of chunks *)

Section Counting.

Variables total p : Z.
Hypothesis p_pos : 0 < p.
Hypothesis total_nonneg : 0 <= total.

Local Abbreviation steps := (PDFSplitter.total_steps_value total p).

Lemma total_steps_returns : PDFSplitter.total_steps total p = Return steps.
Proof.
  unfold PDFSplitter.total_steps, PDFSplitter.total_steps_value, floordiv, modulo.
  destruct (Z.eqb_spec p 0) as [E|_]; [lia|reflexivity].
Qed.

Lemma steps_bounds : (steps - 1) * p < total <= steps * p.
Proof.
  unfold PDFSplitter.total_steps_value.
  pose proof (Z.div_mod total p ltac:(lia)) as D.
  pose proof (Z.mod_pos_bound total p p_pos) as B.
  destruct (Z.eqb_spec (total mod p) 0) as [E|E]; simpl; nia.
Qed.

Lemma steps_nonneg : 0 <= steps.
Proof. pose proof steps_bounds. nia. Qed.

Lemma steps_ceiling : steps = Spec.required_chunk_count total p.
Proof.
  unfold Spec.required_chunk_count.
  pose proof steps_bounds as B.
  assert (Ep : p = Z.pos (Z.to_pos p)) by (symmetry; apply Z2Pos.id, p_pos).
  rewrite (Qceiling_comp _ (total # Z.to_pos p))
    by (rewrite Ep at 1; symmetry; apply Qmake_Qdiv).
  unfold Qceiling, Qfloor, Qopp. cbn [Qnum Qden]. rewrite <- Ep.
  assert (H : - total / p = - steps).
  { symmetry. apply (Z.div_unique (- total) p (- steps) (steps * p - total)); lia. }
  rewrite H. lia.
Qed.

Lemma range_length_steps : range_length 0 total p = steps.
Proof.
  unfold range_length.
  destruct (Z.ltb_spec 0 p) as [_|]; [|lia].
  pose proof steps_bounds as B.
  destruct (Z.ltb_spec 0 total) as [T|T].
  - symmetry. assert (H : steps - 1 = (total - 0 - 1) / p); [|lia].
    apply (Z.div_unique _ p (steps - 1) (total - 1 - (steps - 1) * p)); lia.
  - assert (total = 0) by lia. nia.
Qed.

Lemma range_starts :
  range 0 total p
  = Return (List.map (fun k => Z.of_nat k * p) (seq 0 (Z.to_nat steps))).
Proof.
  unfold range. destruct (Z.eqb_spec p 0); [lia|].
  rewrite range_length_steps. reflexivity.
Qed.

End Counting.

(** ** Page ranges *)

Section Pages.

Context {A : Type}.

Lemma skipn_nth_error (l : list A) (k : nat) (x : A) :
  nth_error l k = Some x -> skipn k l = x :: skipn (S k) l.
Proof.
  revert l. induction k as [|k IH]; intros [|a l]; simpl; try discriminate.
  - now intros [= ->].
  - apply IH.
Qed.

Lemma firstn_plus (a b : nat) (l : list A) :
  firstn (a + b) l = firstn a l ++ firstn b (skipn a l).
Proof.
  revert l. induction a as [|a IH]; intros [|x l]; simpl;
    try reflexivity.
  - now rewrite firstn_nil.
  - now rewrite IH.
Qed.

(** Consecutive blocks of [q] elements, put end to end. *)
Lemma concat_blocks (q : nat) (l : list A) (n m : nat) :
  List.concat (List.map (fun i => firstn q (skipn (i * q) l)) (seq n m))
  = firstn (m * q) (skipn (n * q) l).
Proof.
  revert n. induction m as [|m IH]; intros n; simpl; [reflexivity|].
  rewrite IH, firstn_plus, skipn_skipn. repeat f_equal; lia.
Qed.

Lemma getitem_nonneg (l : list A) (i : Z) (x : A) :
  0 <= i -> nth_error l (Z.to_nat i) = Some x -> getitem l i = Return x.
Proof.
  intros Hi E. unfold getitem. cbv zeta.
  do 2 (destruct (Z.ltb_spec i 0); [lia|]). now rewrite E.
Qed.

End Pages.

Lemma add_pages_block (reader : list page) (i : Z) (c a : nat) (acc : list page) :
  0 <= i -> (Z.to_nat i + a + c <= List.length reader)%nat ->
  PDFSplitter.add_pages reader
    (List.map (fun k => i + Z.of_nat k * 1) (seq a c)) acc
  = Return (acc ++ firstn c (skipn (Z.to_nat i + a) reader)).
Proof.
  intros Hi. revert a acc. induction c as [|c IH]; intros a acc Hc; simpl.
  - now rewrite app_nil_r.
  - destruct (nth_error reader (Z.to_nat i + a)) as [pg|] eqn:E.
    2:{ apply nth_error_None in E. lia. }
    assert (G : getitem reader (i + Z.of_nat a * 1) = Return pg).
    { apply getitem_nonneg; [lia|].
      now replace (Z.to_nat (i + Z.of_nat a * 1)) with (Z.to_nat i + a)%nat by lia. }
    rewrite G, IH by lia.
    rewrite (skipn_nth_error _ _ _ E). cbn [firstn].
    rewrite <- app_assoc. cbn [app].
    now replace (Z.to_nat i + S a)%nat with (S (Z.to_nat i + a)) by lia.
Qed.

Lemma chunk_pages_block (pages : list page) (p : Z) (i : nat) :
  0 < p ->
  Spec.chunk_pages pages p i
  = firstn (Z.to_nat p) (skipn (i * Z.to_nat p) pages).
Proof.
  intros Hp. unfold Spec.chunk_pages, Spec.page_range, len.
  replace (Z.to_nat (Z.of_nat i * p)) with (i * Z.to_nat p)%nat by nia.
  set (rest := skipn (i * Z.to_nat p) pages).
  assert (L : List.length rest = (List.length pages - i * Z.to_nat p)%nat)
    by apply length_skipn.
  destruct (Z.le_ge_cases ((Z.of_nat i + 1) * p) (Z.of_nat (List.length pages))) as [H|H].
  - rewrite Z.min_l by exact H. f_equal. lia.
  - rewrite Z.min_r by exact H.
    rewrite !firstn_all2; try reflexivity; nia.
Qed.

(** ** Float arithmetic

    What the progress value needs of binary64: the quotient of two
    integers and its product by 100.0, each rounded once, stay within one
    unit in the last place of the exact result. *)

Section Floats.
Import Binary64.

(** *** The number of binary digits *)

Lemma digits2_pos_size (p : positive) : digits2_pos p = Pos.size p.
Proof. induction p; simpl; congruence. Qed.

Lemma Zdigits2_log2 (m : Z) : 0 < m -> Zdigits2 m = Z.log2 m + 1.
Proof.
  destruct m as [|p|p]; try lia. intros _. simpl.
  rewrite digits2_pos_size. destruct p; simpl; lia.
Qed.

Lemma Zdigits2_bounds (m : Z) :
  0 < m -> 2 ^ (Zdigits2 m - 1) <= m < 2 ^ Zdigits2 m.
Proof.
  intros H. rewrite Zdigits2_log2 by exact H.
  replace (Z.log2 m + 1 - 1) with (Z.log2 m) by lia.
  replace (Z.log2 m + 1) with (Z.succ (Z.log2 m)) by lia.
  apply Z.log2_spec. exact H.
Qed.

Lemma Zdigits2_nonneg (m : Z) : 0 <= Zdigits2 m.
Proof. destruct m; simpl; lia. Qed.

Lemma Zdigits2_le (m t : Z) : 0 <= t -> 0 <= m < 2 ^ t -> Zdigits2 m <= t.
Proof.
  intros Ht [H0 H]. destruct (Z.eq_dec m 0) as [->|N]; [simpl; lia|].
  rewrite Zdigits2_log2 by lia.
  assert (Z.log2 m < t) by (apply Z.log2_lt_pow2; lia). lia.
Qed.

Lemma Zdigits2_ge (m t : Z) : 0 < m -> 2 ^ t <= m -> t < Zdigits2 m.
Proof.
  intros H0 H. rewrite Zdigits2_log2 by lia.
  destruct (Z.le_gt_cases 0 t) as [T|T]; [|pose proof (Z.log2_nonneg m); lia].
  assert (t <= Z.log2 m) by (apply Z.log2_le_pow2; lia). lia.
Qed.

(** *** Shifting right and rounding *)

Lemma shr_1_m (r : shr_record) :
  0 <= shr_m r -> shr_m (shr_1 r) = shr_m r / 2.
Proof.
  destruct r as [m r s]. simpl. intros H.
  rewrite <- Z.div2_div.
  destruct m as [|[p|p|]|p]; try reflexivity; lia.
Qed.

Lemma shr_m_iter (p : positive) :
  forall r, 0 <= shr_m r ->
            shr_m (iter_pos shr_1 p r) = shr_m r / 2 ^ Zpos p.
Proof.
  induction p as [p IH|p IH|]; intros r H; simpl iter_pos.
  - assert (H1 : 0 <= shr_m (shr_1 r)) by (rewrite shr_1_m by exact H; apply Z.div_pos; lia).
    assert (H2 : 0 <= shr_m (iter_pos shr_1 p (shr_1 r)))
      by (rewrite IH by exact H1; apply Z.div_pos; [exact H1|apply Z.pow_pos_nonneg; lia]).
    rewrite IH by exact H2. rewrite IH by exact H1. rewrite shr_1_m by exact H.
    rewrite !Z.div_div by (try apply Z.pow_pos_nonneg; lia).
    f_equal. rewrite <- Z.pow_add_r by lia. rewrite <- (Z.pow_1_r 2) at 1.
    rewrite <- Z.pow_add_r by lia. f_equal. lia.
  - assert (H2 : 0 <= shr_m (iter_pos shr_1 p r))
      by (rewrite IH by exact H; apply Z.div_pos; [exact H|apply Z.pow_pos_nonneg; lia]).
    rewrite IH by exact H2. rewrite IH by exact H.
    rewrite !Z.div_div by (try apply Z.pow_pos_nonneg; lia).
    f_equal. rewrite <- Z.pow_add_r by lia. f_equal. lia.
  - rewrite shr_1_m by exact H. reflexivity.
Qed.

Lemma shr_m_of_loc (m : Z) (l : location) : shr_m (shr_record_of_loc m l) = m.
Proof. destruct l as [|[]]; reflexivity. Qed.


Lemma shr_fexp_m (m e : Z) (l : location) :
  0 <= m ->
  shr_m (fst (shr_fexp 53 1024 m e l))
  = m / 2 ^ Z.max 0 (fexp 53 1024 (Zdigits2 m + e) - e)
  /\ snd (shr_fexp 53 1024 m e l)
     = e + Z.max 0 (fexp 53 1024 (Zdigits2 m + e) - e).
Proof.
  intros H. unfold shr_fexp, shr.
  destruct (fexp 53 1024 (Zdigits2 m + e) - e) as [|p|p] eqn:E; cbn [fst snd].
  - rewrite shr_m_of_loc. change (Z.max 0 0) with 0. rewrite Z.div_1_r. lia.
  - rewrite shr_m_iter by (rewrite shr_m_of_loc; exact H).
    rewrite shr_m_of_loc. rewrite Z.max_r by lia. split; reflexivity.
  - rewrite shr_m_of_loc. rewrite Z.max_l by lia. rewrite Z.div_1_r. lia.
Qed.

Lemma round_nearest_even_cases (m : Z) (l : location) :
  round_nearest_even m l = m \/ round_nearest_even m l = m + 1.
Proof.
  destruct l as [|[]]; simpl; auto. destruct (Z.even m); auto.
Qed.

Lemma binary_round_aux_parts (sx : bool) (mx ex : Z) (lx : location) :
  0 <= mx ->
  let K1 := Z.max 0 (fexp 53 1024 (Zdigits2 mx + ex) - ex) in
  let m1 := mx / 2 ^ K1 in
  let e1 := ex + K1 in
  exists m2,
    (m2 = m1 \/ m2 = m1 + 1)
    /\ let K2 := Z.max 0 (fexp 53 1024 (Zdigits2 m2 + e1) - e1) in
       binary_round_aux 53 1024 sx mx ex lx
       = match m2 / 2 ^ K2 with
         | Z0 => S754_zero sx
         | Zpos m => if e1 + K2 <=? 971 then S754_finite sx m (e1 + K2)
                     else S754_infinity sx
         | Zneg _ => S754_nan
         end.
Proof.
  intros H K1 m1 e1. unfold binary_round_aux.
  destruct (shr_fexp_m mx ex lx H) as [A B].
  destruct (shr_fexp 53 1024 mx ex lx) as [mrs' e']. cbn [fst snd] in A, B.
  fold K1 in A, B. fold m1 in A. fold e1 in B. subst e'.
  set (m2 := round_nearest_even (shr_m mrs') (loc_of_shr_record mrs')).
  assert (M2 : m2 = m1 \/ m2 = m1 + 1)
    by (unfold m2; rewrite <- A; apply round_nearest_even_cases).
  assert (M1 : 0 <= m1) by (apply Z.div_pos; [exact H|apply Z.pow_pos_nonneg; lia]).
  exists m2. split; [exact M2|]. cbv zeta.
  destruct (shr_fexp_m m2 e1 loc_Exact ltac:(lia)) as [C D].
  destruct (shr_fexp 53 1024 m2 e1 loc_Exact) as [mrs'' e'']. cbn [fst snd] in C, D.
  rewrite C, D. reflexivity.
Qed.


Lemma fexp_eq (t : Z) : fexp 53 1024 t = Z.max (t - 53) (-1074).
Proof. reflexivity. Qed.

Lemma pow2_pos (t : Z) : 0 <= t -> 0 < 2 ^ t.
Proof. intros. apply Z.pow_pos_nonneg; lia. Qed.

Lemma pow2_split (a b : Z) : 0 <= a -> 0 <= b -> 2 ^ (a + b) = 2 ^ a * 2 ^ b.
Proof. intros. apply Z.pow_add_r; assumption. Qed.

Lemma pow2_mono (a b : Z) : 0 <= a <= b -> 2 ^ a <= 2 ^ b.
Proof. intros. apply Z.pow_le_mono_r; lia. Qed.

(** Rounding a mantissa of at least 53 digits, away from the subnormal
    range and from overflow. *)
Lemma binary_round_aux_normal (sx : bool) (mx ex : Z) (lx : location) :
  0 < mx -> 53 <= Zdigits2 mx -> -1021 <= Zdigits2 mx + ex <= 1023 ->
  let k := Zdigits2 mx - 53 in
  let m1 := mx / 2 ^ k in
  let e1 := ex + k in
  exists m e,
    binary_round_aux 53 1024 sx mx ex lx = S754_finite sx m e
    /\ 2 ^ 52 <= Zpos m < 2 ^ 53
    /\ 2 ^ 52 <= m1 < 2 ^ 53
    /\ ((e = e1 /\ (Zpos m = m1 \/ Zpos m = m1 + 1))
        \/ (e = e1 + 1 /\ Zpos m = 2 ^ 52 /\ m1 + 1 = 2 ^ 53)).
Proof.
  intros Hm Hd He k m1 e1.
  destruct (binary_round_aux_parts sx mx ex lx ltac:(lia)) as [m2 [M2 R]].
  cbv zeta in R. rewrite R. clear R.
  assert (K1 : Z.max 0 (fexp 53 1024 (Zdigits2 mx + ex) - ex) = k)
    by (rewrite fexp_eq; unfold k; lia).
  rewrite K1 in *. fold m1 in M2. fold e1.
  pose proof (Zdigits2_bounds mx Hm) as B.
  assert (P : 2 ^ (Zdigits2 mx - 1) = 2 ^ k * 2 ^ 52)
    by (rewrite <- pow2_split by (unfold k; lia); f_equal; unfold k; lia).
  assert (P' : 2 ^ Zdigits2 mx = 2 ^ k * 2 ^ 53)
    by (rewrite <- pow2_split by (unfold k; lia); f_equal; unfold k; lia).
  assert (Pk : 0 < 2 ^ k) by (apply pow2_pos; unfold k; lia).
  assert (M1 : 2 ^ 52 <= m1 < 2 ^ 53).
  { unfold m1. split.
    - apply Z.div_le_lower_bound; lia.
    - apply Z.div_lt_upper_bound; lia. }
  destruct (Z.eq_dec m2 (2 ^ 53)) as [E|N].
  - assert (D2 : Zdigits2 m2 = 54).
    { apply Z.le_antisymm.
      - apply Zdigits2_le; [lia|]. rewrite E. split; [lia|].
        apply Z.pow_lt_mono_r; lia.
      - assert (53 < Zdigits2 m2) by (apply Zdigits2_ge; lia). lia. }
    rewrite D2, fexp_eq.
    replace (Z.max 0 (Z.max (54 + e1 - 53) (-1074) - e1)) with 1
      by (unfold e1, k; lia).
    rewrite E. change (2 ^ 53 / 2 ^ 1) with (Zpos (Z.to_pos (2 ^ 52))).
    destruct (Z.leb_spec (e1 + 1) 971) as [L|L]; [|unfold e1, k in L; lia].
    eexists _, _. split; [reflexivity|]. split; [|split; [exact M1|]].
    + change (Zpos (Z.to_pos (2 ^ 52))) with (2 ^ 52). split; [lia|reflexivity].
    + right. split; [reflexivity|]. split; [reflexivity|]. lia.
  - assert (M2' : 2 ^ 52 <= m2 < 2 ^ 53) by lia.
    assert (D2 : Zdigits2 m2 = 53).
    { apply Z.le_antisymm.
      - apply Zdigits2_le; lia.
      - assert (52 < Zdigits2 m2) by (apply Zdigits2_ge; lia). lia. }
    rewrite D2, fexp_eq.
    replace (Z.max 0 (Z.max (53 + e1 - 53) (-1074) - e1)) with 0
      by (unfold e1, k; lia).
    rewrite Z.div_1_r, Z.add_0_r.
    destruct m2 as [|p|p]; try lia.
    destruct (Z.leb_spec e1 971) as [L|L]; [|unfold e1, k in L; lia].
    exists p, e1. split; [reflexivity|]. split; [exact M2'|]. split; [exact M1|].
    left. split; [reflexivity|exact M2].
Qed.

(** The core of the division of two positive integers. *)
Lemma div_core_integers (a b : Z) :
  0 < a -> 0 < b ->
  let s := - Z.min (fexp 53 1024 (Zdigits2 a - Zdigits2 b)) 0 in
  SFdiv_core_binary 53 1024 a 0 b 0
  = ((a * 2 ^ s) / b, - s, new_location b ((a * 2 ^ s) mod b)).
Proof.
  intros Ha Hb s. unfold SFdiv_core_binary.
  rewrite !Z.add_0_r. change (0 - 0) with 0.
  fold (Z.min (fexp 53 1024 (Zdigits2 a - Zdigits2 b)) 0).
  replace (0 - Z.min (fexp 53 1024 (Zdigits2 a - Zdigits2 b)) 0) with s
    by (unfold s; lia).
  replace (Z.min (fexp 53 1024 (Zdigits2 a - Zdigits2 b)) 0) with (- s)
    by (unfold s; lia).
  assert (S0 : 0 <= s) by (unfold s; lia).
  assert (M : match s with Zpos _ => Z.shiftl a s | Z0 => a | Zneg _ => 0 end
              = a * 2 ^ s).
  { destruct s as [|p|p] eqn:E; [simpl; lia| |lia].
    apply Z.shiftl_mul_pow2. lia. }
  rewrite M. unfold Z.div, Z.modulo.
  destruct (Z.div_eucl (a * 2 ^ s) b) as [q r]. reflexivity.
Qed.

(** *** Values as rationals *)

Lemma Qpow2_pos (e : Z) : (0 < 2 ^ e)%Q.
Proof. apply Qpower_0_lt. reflexivity. Qed.

Lemma Qpow2_add (a b : Z) : (2 ^ (a + b) == 2 ^ a * 2 ^ b)%Q.
Proof. apply Qpower_plus. discriminate. Qed.

Lemma Qpow2_Z (t : Z) : 0 <= t -> (2 ^ t == inject_Z (2 ^ t))%Q.
Proof. intros H. symmetry. apply (Zpower_Qpower 2 t H). Qed.

Lemma Qle_inject (a b : Z) : a <= b -> (inject_Z a <= inject_Z b)%Q.
Proof. intros. now rewrite <- Zle_Qle. Qed.

Lemma Qlt_inject (a b : Z) : a < b -> (inject_Z a < inject_Z b)%Q.
Proof. intros. now rewrite <- Zlt_Qlt. Qed.

Lemma Qdiv_le_cross (x y z w : Z) :
  0 < y -> 0 < w -> x * w <= z * y ->
  (inject_Z x / inject_Z y <= inject_Z z / inject_Z w)%Q.
Proof.
  intros Hy Hw H. destruct y as [|py|py]; try lia. destruct w as [|pw|pw]; try lia.
  rewrite <- !Qmake_Qdiv. unfold Qle. simpl. lia.
Qed.

Lemma Qdiv_lt_cross (x y z w : Z) :
  0 < y -> 0 < w -> x * w < z * y ->
  (inject_Z x / inject_Z y < inject_Z z / inject_Z w)%Q.
Proof.
  intros Hy Hw H. destruct y as [|py|py]; try lia. destruct w as [|pw|pw]; try lia.
  rewrite <- !Qmake_Qdiv. unfold Qlt. simpl. lia.
Qed.

(** The rounded value is within one unit in the last place of the value
    it rounds, hence within a relative error of 2^-52. *)
Lemma round_normal_approx (mx ex : Z) (lx : location) (X : Q) :
  0 < mx -> 53 <= Zdigits2 mx -> -1021 <= Zdigits2 mx + ex <= 1023 ->
  (inject_Z mx * 2 ^ ex <= X)%Q ->
  (X < inject_Z (mx + 1) * 2 ^ ex)%Q ->
  exists m e,
    binary_round_aux 53 1024 false mx ex lx = S754_finite false m e
    /\ 2 ^ 52 <= Zpos m < 2 ^ 53
    /\ ex <= e <= ex + (Zdigits2 mx - 53) + 1
    /\ (X * (1 - ulp_bound) <= inject_Z (Zpos m) * 2 ^ e)%Q
    /\ (inject_Z (Zpos m) * 2 ^ e <= X * (1 + ulp_bound))%Q.
Proof.
  intros Hm Hd He HX1 HX2.
  destruct (binary_round_aux_normal false mx ex lx Hm Hd He)
    as [m [e [R [Bm [B1 C]]]]].
  exists m, e. split; [exact R|]. split; [exact Bm|].
  set (k := Zdigits2 mx - 53) in *.
  set (m1 := mx / 2 ^ k) in *.
  assert (K0 : 0 <= k) by (unfold k; lia).
  assert (Pk : 0 < 2 ^ k) by (apply pow2_pos; lia).
  split; [destruct C as [[-> _]|[-> _]]; lia|].
  set (u := (2 ^ (ex + k))%Q).
  set (a := (inject_Z m1 * u)%Q).
  assert (U : (0 < u)%Q) by apply Qpow2_pos.
  assert (Eu : (u == inject_Z (2 ^ k) * 2 ^ ex)%Q).
  { unfold u. rewrite Z.add_comm, Qpow2_add, (Qpow2_Z k K0). reflexivity. }
  pose proof (Qpow2_pos ex) as Pex.
  assert (A1 : (a <= inject_Z mx * 2 ^ ex)%Q).
  { unfold a. rewrite Eu, Qmult_assoc, <- inject_Z_mult.
    apply Qmult_le_compat_r; [|now apply Qlt_le_weak].
    apply Qle_inject. unfold m1. rewrite Z.mul_comm. apply Z.mul_div_le. lia. }
  assert (A2 : (inject_Z (mx + 1) * 2 ^ ex <= a + u)%Q).
  { assert (E : (a + u == inject_Z ((m1 + 1) * 2 ^ k) * 2 ^ ex)%Q).
    { unfold a. rewrite Eu, inject_Z_mult, inject_Z_plus. ring. }
    rewrite E. apply Qmult_le_compat_r; [|now apply Qlt_le_weak].
    apply Qle_inject. unfold m1.
    pose proof (Z.div_mod mx (2 ^ k) ltac:(lia)).
    pose proof (Z.mod_pos_bound mx (2 ^ k) Pk). nia. }
  assert (A3 : (inject_Z (2 ^ 52) * u <= a)%Q).
  { unfold a. apply Qmult_le_compat_r; [|now apply Qlt_le_weak].
    apply Qle_inject. lia. }
  assert (V : (inject_Z (Zpos m) * 2 ^ e == a)%Q
              \/ (inject_Z (Zpos m) * 2 ^ e == a + u)%Q).
  { destruct C as [[-> [E|E]]|[-> [E F]]].
    - left. rewrite E. reflexivity.
    - right. rewrite E. unfold a. fold u. rewrite inject_Z_plus. ring.
    - right. rewrite E.
      replace (ex + k + 1) with (1 + (ex + k)) by lia.
      rewrite Qpow2_add. fold u.
      assert (G : (a + u == inject_Z (m1 + 1) * u)%Q)
        by (unfold a; rewrite inject_Z_plus; ring).
      rewrite G, F. change (2 ^ 1)%Q with (inject_Z 2).
      rewrite Qmult_assoc, <- inject_Z_mult. reflexivity. }
  change (inject_Z (2 ^ 52)) with (4503599627370496 # 1)%Q in A3.
  unfold ulp_bound. change (2 ^ 52)%positive with 4503599627370496%positive.
  destruct V as [V|V]; rewrite V; split; lra.
Qed.

(** The quotient of two integers below 2^48, the first not above the
    second. *)
Lemma div_approx (a b : Z) :
  1 <= a <= b -> b < 2 ^ 48 ->
  exists m e,
    SFdiv 53 1024 (int_operand a) (int_operand b) = S754_finite false m e
    /\ 2 ^ 52 <= Zpos m < 2 ^ 53
    /\ -100 <= e <= 0
    /\ (inject_Z a / inject_Z b * (1 - ulp_bound)
        <= inject_Z (Zpos m) * 2 ^ e)%Q
    /\ (inject_Z (Zpos m) * 2 ^ e
        <= inject_Z a / inject_Z b * (1 + ulp_bound))%Q.
Proof.
  intros Hab Hb.
  destruct a as [|pa|pa]; try lia. destruct b as [|pb|pb]; try lia.
  cbn [int_operand SFdiv xorb].
  pose proof (div_core_integers (Zpos pa) (Zpos pb) ltac:(lia) ltac:(lia)) as C.
  cbv zeta in C. rewrite C. clear C.
  set (a := Zpos pa) in *. set (b := Zpos pb) in *.
  set (l := new_location b _).
  pose proof (Zdigits2_bounds a ltac:(lia)) as Ba.
  pose proof (Zdigits2_bounds b ltac:(lia)) as Bb.
  assert (D1 : 1 <= Zdigits2 a) by (assert (0 < Zdigits2 a) by (apply Zdigits2_ge; lia); lia).
  assert (D2 : Zdigits2 b <= 48) by (apply Zdigits2_le; lia).
  assert (D12 : Zdigits2 a <= Zdigits2 b).
  { apply Zdigits2_le; [apply Zdigits2_nonneg|]. split; [lia|]. lia. }
  rewrite fexp_eq.
  set (s := - Z.min (Z.max (Zdigits2 a - Zdigits2 b - 53) (-1074)) 0).
  assert (S : s = 53 + Zdigits2 b - Zdigits2 a) by (unfold s; lia).
  assert (S0 : 53 <= s <= 100) by lia.
  assert (Ps : 0 < 2 ^ s) by (apply pow2_pos; lia).
  set (q := a * 2 ^ s / b).
  assert (Q1 : 2 ^ 52 <= q).
  { unfold q. apply Z.div_le_lower_bound; [lia|].
    apply Z.le_trans with (2 ^ Zdigits2 b * 2 ^ 52); [nia|].
    rewrite <- pow2_split by lia.
    replace (Zdigits2 b + 52) with (Zdigits2 a - 1 + s) by lia.
    rewrite pow2_split by lia. nia. }
  assert (Q2 : q < 2 ^ 54).
  { unfold q. apply Z.div_lt_upper_bound; [lia|].
    apply Z.lt_le_trans with (2 ^ Zdigits2 a * 2 ^ s); [nia|].
    rewrite <- pow2_split by lia.
    replace (Zdigits2 a + s) with (Zdigits2 b - 1 + 54) by lia.
    rewrite pow2_split by lia. nia. }
  assert (Dq : 53 <= Zdigits2 q <= 54).
  { split.
    - assert (52 < Zdigits2 q) by (apply Zdigits2_ge; lia). lia.
    - apply Zdigits2_le; lia. }
  pose proof (Z.mul_div_le (a * 2 ^ s) b ltac:(lia)) as L1. fold q in L1.
  pose proof (Z.mul_succ_div_gt (a * 2 ^ s) b ltac:(lia)) as L2. fold q in L2.
  assert (Is : forall x : Z, (inject_Z x * 2 ^ (- s) == inject_Z x / inject_Z (2 ^ s))%Q).
  { intros x. rewrite Qpower_opp, (Qpow2_Z s) by lia. reflexivity. }
  destruct (round_normal_approx q (- s) l (inject_Z a / inject_Z b))
    as [m [e [R [Bm [Be [V1 V2]]]]]]; try lia.
  - rewrite Is. apply Qdiv_le_cross; lia.
  - rewrite Is. apply Qdiv_lt_cross; lia.
  - exists m, e. repeat split; try assumption; lia.
Qed.

Lemma hundred_value : hundred = S754_finite false 7036874417766400 (-46).
Proof. reflexivity. Qed.

(** A normal double of moderate exponent, times 100. *)
Lemma mul_hundred_approx (m : positive) (e : Z) :
  2 ^ 52 <= Zpos m < 2 ^ 53 -> -200 <= e <= 200 ->
  exists m' e',
    SFmul 53 1024 (S754_finite false m e) hundred = S754_finite false m' e'
    /\ 2 ^ 52 <= Zpos m' < 2 ^ 53
    /\ (inject_Z (Zpos m) * 2 ^ e * 100 * (1 - ulp_bound)
        <= inject_Z (Zpos m') * 2 ^ e')%Q
    /\ (inject_Z (Zpos m') * 2 ^ e'
        <= inject_Z (Zpos m) * 2 ^ e * 100 * (1 + ulp_bound))%Q.
Proof.
  intros Hm He. rewrite hundred_value. cbn [SFmul xorb].
  set (mc := 7036874417766400%positive).
  assert (Mc : Zpos mc = 100 * 2 ^ 46) by reflexivity.
  set (mx := Zpos (m * mc)).
  assert (Mx : mx = Zpos m * Zpos mc) by reflexivity.
  assert (B1 : 2 ^ 104 <= mx) by (rewrite Mx, Mc; lia).
  assert (B2 : mx < 2 ^ 106) by (rewrite Mx, Mc; lia).
  assert (Dx : 105 <= Zdigits2 mx <= 106).
  { split.
    - assert (104 < Zdigits2 mx) by (apply Zdigits2_ge; lia). lia.
    - apply Zdigits2_le; lia. }
  assert (X : (inject_Z mx * 2 ^ (e + -46)
               == inject_Z (Zpos m) * 2 ^ e * 100)%Q).
  { rewrite Mx, inject_Z_mult, Qpow2_add.
    assert (C : (inject_Z (Zpos mc) * 2 ^ (-46) == 100)%Q) by reflexivity.
    rewrite <- C. ring. }
  destruct (round_normal_approx mx (e + -46) loc_Exact
              (inject_Z (Zpos m) * 2 ^ e * 100))
    as [m' [e' [R [Bm [Be [V1 V2]]]]]]; try lia.
  - rewrite X. apply Qle_refl.
  - rewrite <- X. apply Qmult_lt_compat_r; [apply Qpow2_pos|].
    apply Qlt_inject. lia.
  - exists m', e'. repeat split; try assumption; lia.
Qed.

(** Two positive normal doubles compare as their values do. *)
Lemma SFltb_of_values (m1 m2 : positive) (e1 e2 : Z) :
  2 ^ 52 <= Zpos m1 < 2 ^ 53 -> 2 ^ 52 <= Zpos m2 < 2 ^ 53 ->
  (inject_Z (Zpos m1) * 2 ^ e1 < inject_Z (Zpos m2) * 2 ^ e2)%Q ->
  SFltb (S754_finite false m1 e1) (S754_finite false m2 e2) = true.
Proof.
  intros B1 B2 H. unfold SFltb, SFcompare.
  destruct (Z.compare_spec e1 e2) as [E|E|E].
  - subst e2.
    assert (L : Zpos m1 < Zpos m2).
    { apply Qmult_lt_r in H; [|apply Qpow2_pos]. now rewrite <- Zlt_Qlt in H. }
    change (Pos.compare_cont Eq m1 m2) with (Pos.compare m1 m2).
    now rewrite (proj2 (Pos.compare_lt_iff m1 m2) L).
  - reflexivity.
  - exfalso. apply (Qlt_irrefl (inject_Z (Zpos m1) * 2 ^ e1)).
    eapply Qlt_le_trans; [exact H|].
    replace e1 with ((e1 - e2) + e2) by lia.
    rewrite Qpow2_add, (Qpow2_Z (e1 - e2)) by lia.
    rewrite Qmult_assoc, <- inject_Z_mult.
    apply Qmult_le_compat_r; [|apply Qlt_le_weak, Qpow2_pos].
    apply Qle_inject.
    assert (2 ^ 1 <= 2 ^ (e1 - e2)) by (apply pow2_mono; lia).
    change (2 ^ 1) with 2 in *. nia.
Qed.

(** The progress values of consecutive chunks. *)
Lemma scaled_quotient_increases (i n : Z) :
  1 <= i -> i < n -> n < 2 ^ 48 ->
  float_lt
    (float_mul (SFdiv 53 1024 (int_operand i) (int_operand n)) hundred)
    (float_mul (SFdiv 53 1024 (int_operand (i + 1)) (int_operand n)) hundred)
  = true.
Proof.
  intros Hi Hin Hn. unfold float_lt, float_mul.
  destruct (div_approx i n ltac:(lia) Hn) as [m1 [e1 [R1 [B1 [E1 [L1 U1]]]]]].
  destruct (div_approx (i + 1) n ltac:(lia) Hn) as [m2 [e2 [R2 [B2 [E2 [L2 U2]]]]]].
  rewrite R1, R2.
  destruct (mul_hundred_approx m1 e1 B1 ltac:(lia)) as [m3 [e3 [R3 [B3 [L3 U3]]]]].
  destruct (mul_hundred_approx m2 e2 B2 ltac:(lia)) as [m4 [e4 [R4 [B4 [L4 U4]]]]].
  rewrite R3, R4. apply SFltb_of_values; [exact B3|exact B4|].
  set (d := (1 / inject_Z n)%Q).
  assert (N0 : (0 < inject_Z n)%Q) by (apply (Qlt_inject 0); lia).
  assert (D0 : (0 < d)%Q) by (unfold d; apply Qlt_shift_div_l; [exact N0|lra]).
  assert (A : (inject_Z i / inject_Z n == inject_Z i * d)%Q)
    by (unfold d; field; lra).
  assert (B : (inject_Z (i + 1) / inject_Z n == inject_Z i * d + d)%Q)
    by (unfold d; rewrite inject_Z_plus; field; lra).
  assert (I1 : (1 <= inject_Z i)%Q) by now apply (Qle_inject 1).
  assert (I2 : (inject_Z i <= inject_Z (2 ^ 48))%Q) by (apply Qle_inject; lia).
  change (inject_Z (2 ^ 48)) with (281474976710656 # 1)%Q in I2.
  rewrite A in *. rewrite B in *.
  set (x := (inject_Z i * d)%Q) in *.
  assert (X0 : (0 < x)%Q) by (unfold x; apply Qmult_lt_0_compat; lra).
  assert (X1 : (x <= (281474976710656 # 1) * d)%Q)
    by (unfold x; apply Qmult_le_compat_r; lra).
  unfold ulp_bound in *.
  change (2 ^ 52)%positive with 4503599627370496%positive in *.
  set (v1 := (inject_Z (Zpos m1) * 2 ^ e1)%Q) in *.
  set (v2 := (inject_Z (Zpos m2) * 2 ^ e2)%Q) in *.
  set (v3 := (inject_Z (Zpos m3) * 2 ^ e3)%Q) in *.
  set (v4 := (inject_Z (Zpos m4) * 2 ^ e4)%Q) in *.
  lra.
Qed.

(** The last chunk: n / n * 100 is 100.0 exactly. *)
Lemma scaled_quotient_full (n : Z) :
  1 <= n ->
  float_mul (SFdiv 53 1024 (int_operand n) (int_operand n)) hundred = hundred.
Proof.
  intros Hn. unfold float_mul.
  destruct n as [|p|p]; try lia. cbn [int_operand SFdiv xorb].
  pose proof (div_core_integers (Zpos p) (Zpos p) ltac:(lia) ltac:(lia)) as C.
  cbv zeta in C. revert C. rewrite Z.sub_diag.
  change (- Z.min (fexp 53 1024 0) 0) with 53.
  rewrite (Z.mul_comm (Zpos p)), Z.div_mul, Z.mod_mul by lia.
  assert (L : new_location (Zpos p) 0 = loc_Exact).
  { unfold new_location, new_location_even, new_location_odd.
    destruct (Z.even (Zpos p)); reflexivity. }
  rewrite L. intros C. rewrite C. reflexivity.
Qed.

(** The quotient of a positive integer by one that is not smaller never
    overflows, whatever their sizes. *)
Lemma div_le_not_infinite (a b : Z) (sg : bool) :
  1 <= a <= b ->
  SFdiv 53 1024 (int_operand a) (int_operand b) <> S754_infinity sg.
Proof.
  intros Hab.
  destruct a as [|pa|pa]; try lia. destruct b as [|pb|pb]; try lia.
  cbn [int_operand SFdiv xorb].
  pose proof (div_core_integers (Zpos pa) (Zpos pb) ltac:(lia) ltac:(lia)) as C.
  cbv zeta in C. rewrite C. clear C.
  set (a := Zpos pa) in *. set (b := Zpos pb) in *.
  set (l := new_location b _).
  pose proof (Zdigits2_bounds a ltac:(lia)) as Ba.
  pose proof (Zdigits2_bounds b ltac:(lia)) as Bb.
  pose proof (Zdigits2_nonneg a) as Na.
  pose proof (Zdigits2_nonneg b) as Nb.
  assert (D12 : Zdigits2 a <= Zdigits2 b).
  { apply Zdigits2_le; [exact Nb|]. lia. }
  rewrite fexp_eq.
  set (s := - Z.min (Z.max (Zdigits2 a - Zdigits2 b - 53) (-1074)) 0).
  assert (S0 : 53 <= s <= 1074) by (unfold s; lia).
  assert (Ps : 0 < 2 ^ s) by (apply pow2_pos; lia).
  set (q := a * 2 ^ s / b).
  assert (Q0 : 0 <= q) by (unfold q; apply Z.div_pos; nia).
  assert (Q1 : q <= 2 ^ s) by (unfold q; apply Z.div_le_upper_bound; nia).
  assert (Dq : Zdigits2 q <= s + 1).
  { apply Zdigits2_le; [lia|]. split; [exact Q0|].
    rewrite pow2_split by lia. change (2 ^ 1) with 2. lia. }
  pose proof (Zdigits2_nonneg q) as Nq.
  destruct (binary_round_aux_parts false q (- s) l Q0) as [m2 [M2 R]].
  cbv zeta in R. rewrite R. clear R.
  rewrite !fexp_eq. rewrite fexp_eq in M2.
  set (K1 := Z.max 0 (Z.max (Zdigits2 q + - s - 53) (-1074) - - s)) in *.
  assert (K1b : 0 <= K1 <= s) by (unfold K1; lia).
  assert (P1 : 0 < 2 ^ K1) by (apply pow2_pos; lia).
  set (m1 := q / 2 ^ K1) in *.
  assert (M1 : 0 <= m1 <= 2 ^ (s - K1)).
  { unfold m1. split; [apply Z.div_pos; lia|].
    apply Z.div_le_upper_bound; [lia|].
    rewrite <- pow2_split by lia. replace (K1 + (s - K1)) with s by lia. lia. }
  assert (P2 : 0 < 2 ^ (s - K1)) by (apply pow2_pos; lia).
  assert (D2 : Zdigits2 m2 <= s - K1 + 2).
  { apply Zdigits2_le; [lia|]. split; [lia|].
    rewrite pow2_split by lia. change (2 ^ 2) with 4. lia. }
  pose proof (Zdigits2_nonneg m2) as N2.
  set (K2 := Z.max 0 (Z.max (Zdigits2 m2 + (- s + K1) - 53) (-1074) - (- s + K1))).
  assert (E : - s + K1 + K2 <= 971) by (unfold K2; lia).
  destruct (m2 / 2 ^ K2) as [|p|p]; try discriminate.
  destruct (Z.leb_spec (- s + K1 + K2) 971); [discriminate|lia].
Qed.

End Floats.

(** ** One iteration of the loop *)

Section Bloco.

Variable w : World.
Variable reader : list page.
Variable df : DataFrame.
Variable p : Z.
Variable out : str.

Hypothesis p_pos : 0 < p.
Hypothesis has_column : columns df <> 0%nat.

Local Abbreviation total := (len reader).
Local Abbreviation steps := (PDFSplitter.total_steps_value (len reader) p).

Hypothesis enough_names : steps <= len (column0 df).

Lemma total_nonneg : 0 <= total.
Proof. unfold len. lia. Qed.

Lemma start_in_document (n : nat) :
  Z.of_nat n < steps -> Z.of_nat n * p < total.
Proof.
  intros Hn. pose proof (steps_bounds total p p_pos). nia.
Qed.

Lemma floordiv_start (n : nat) :
  floordiv (Z.of_nat n * p) p = Return (Z.of_nat n).
Proof.
  unfold floordiv. destruct (Z.eqb_spec p 0); [lia|].
  now rewrite Z.div_mul by lia.
Qed.

Lemma block_pages (n : nat) :
  Z.of_nat n < steps ->
  match range (Z.of_nat n * p) (Z.min (Z.of_nat n * p + p) total) 1 with
  | Return js => PDFSplitter.add_pages reader js []
  | Raise e => Raise e
  end = Return (Spec.chunk_pages reader p n).
Proof.
  intros Hn. pose proof (start_in_document n Hn) as Hi.
  set (i := Z.of_nat n * p) in *.
  set (stop := Z.min (i + p) total).
  assert (Hs : i < stop) by (unfold stop; lia).
  assert (Hl : range_length i stop 1 = stop - i).
  { unfold range_length. change (0 <? 1) with true. cbv iota.
    destruct (Z.ltb_spec i stop); [|lia]. rewrite Z.div_1_r. lia. }
  unfold range. change (1 =? 0) with false. cbv iota. rewrite Hl.
  assert (Hi0 : 0 <= i) by (unfold i; nia).
  assert (Hst : stop <= Z.of_nat (List.length reader)) by (unfold stop, len; lia).
  rewrite add_pages_block by lia.
  cbn [app]. f_equal.
  unfold Spec.chunk_pages, Spec.page_range. fold i.
  replace ((Z.of_nat n + 1) * p) with (i + p) by (unfold i; lia).
  fold stop. now rewrite Nat.add_0_r.
Qed.

Lemma block_name (n : nat) :
  Z.of_nat n < steps ->
  PDFSplitter.novo_nome df (Z.of_nat n * p) p = Return (Spec.chunk_name df n).
Proof.
  intros Hn. unfold PDFSplitter.novo_nome, PDFSplitter.iloc0.
  rewrite floordiv_start.
  destruct (Nat.eqb_spec (columns df) 0) as [E|_]; [contradiction|].
  assert (Hlt : (n < List.length (column0 df))%nat) by (unfold len in *; lia).
  destruct (nth_error (column0 df) n) as [c|] eqn:E.
  2:{ apply nth_error_None in E. lia. }
  rewrite (getitem_nonneg _ _ c) by (try lia; now rewrite Nat2Z.id).
  unfold Spec.chunk_name. now rewrite (nth_error_nth _ _ _ E).
Qed.

Lemma block_fraction (n : nat) :
  Z.of_nat n < steps ->
  truediv (Z.of_nat n + 1) steps
  = Return (SFdiv 53 1024 (int_operand (Z.of_nat n + 1)) (int_operand steps)).
Proof.
  intros Hn. unfold truediv.
  destruct (Z.eqb_spec steps 0); [lia|].
  destruct (SFdiv 53 1024 _ _) as [| sg | |] eqn:E; try reflexivity.
  exfalso. revert E. apply div_le_not_infinite. lia.
Qed.

Lemma float_of_int_100 : float_of_int 100 = Return hundred.
Proof. reflexivity. Qed.

(** What one iteration does, for a block that lies in the document. *)
Lemma bloco_run (n : nat) (s : SplitterObject) :
  Z.of_nat n < steps ->
  PDFSplitter.bloco w reader df p total steps out n (Z.of_nat n * p) s
  = let s1 := if cancel_click w n then {| cancel_operation := true |} else s in
    if cancel_operation s1 then
      (Return (Some false), s1, [LogInfo LogCancelada])
    else
      let nome := Spec.chunk_name df n in
      let pages := Spec.chunk_pages reader p n in
      match write w out nome pages with
      | Return _ =>
          (Return None, s1,
           [WriteFile out nome pages; LogInfo (LogCriado nome);
            Progress (Spec.progress_after steps n)])
      | Raise e =>
          (Return (Some false), s1,
           [LogError (LogErroSalvar nome e); ShowError (MsgErroSalvar nome e)])
      end.
Proof.
  intros Hn.
  pose proof (block_pages n Hn) as Hpages.
  pose proof (block_name n Hn) as Hname.
  pose proof (block_fraction n Hn) as Hfrac.
  pose proof (floordiv_start n) as Hrow.
  unfold PDFSplitter.bloco, bind, operator, get_cancel_operation,
    set_cancel_operation, try_except, lift, emit, ret.
  destruct (range _ _ 1) as [js|e]; [|discriminate].
  rewrite Hpages, Hname, Hrow, Hfrac, float_of_int_100.
  destruct (cancel_click w n); cbn.
  - reflexivity.
  - destruct (cancel_operation s) eqn:Hc; cbn; [reflexivity|].
    destruct (write w out _ _) as [[]|e]; reflexivity.
Qed.

End Bloco.

(** ** Reading the trace of completed chunks *)

Section Observers.

Lemma written_app (t1 t2 : list event) :
  Trace.written (t1 ++ t2) = Trace.written t1 ++ Trace.written t2.
Proof.
  induction t1 as [|[] t1 IH]; simpl; try assumption; [reflexivity|].
  now rewrite IH.
Qed.

Lemma progress_app (t1 t2 : list event) :
  Trace.progress (t1 ++ t2) = Trace.progress t1 ++ Trace.progress t2.
Proof.
  induction t1 as [|[] t1 IH]; simpl; try assumption; [reflexivity|].
  now rewrite IH.
Qed.

Lemma dialogs_app (t1 t2 : list event) :
  Trace.dialogs (t1 ++ t2) = Trace.dialogs t1 ++ Trace.dialogs t2.
Proof.
  induction t1 as [|[] t1 IH]; simpl; try assumption;
    [reflexivity|now rewrite IH..].
Qed.

Lemma logged_app (t1 t2 : list event) :
  Trace.logged (t1 ++ t2) = Trace.logged t1 ++ Trace.logged t2.
Proof.
  induction t1 as [|[] t1 IH]; simpl; try assumption;
    [reflexivity|now rewrite IH..].
Qed.

Variable reader : list page.
Variable df : DataFrame.
Variables p required : Z.
Variable out : str.

Local Abbreviation done := (Spec.chunks_done reader df p required out).

Lemma chunks_done_S (n m : nat) :
  done n (S m) = Spec.chunk_done reader df p required out n ++ done (S n) m.
Proof. reflexivity. Qed.

Lemma written_done (n m : nat) :
  Trace.written (done n m)
  = List.map (fun i => (out, Spec.chunk_name df i, Spec.chunk_pages reader p i))
             (seq n m).
Proof.
  revert n. induction m as [|m IH]; intros n; [reflexivity|].
  rewrite chunks_done_S, written_app, IH. reflexivity.
Qed.

Lemma progress_done (n m : nat) :
  Trace.progress (done n m) = List.map (Spec.progress_after required) (seq n m).
Proof.
  revert n. induction m as [|m IH]; intros n; [reflexivity|].
  rewrite chunks_done_S, progress_app, IH. reflexivity.
Qed.

Lemma dialogs_done (n m : nat) : Trace.dialogs (done n m) = [].
Proof.
  revert n. induction m as [|m IH]; intros n; [reflexivity|].
  rewrite chunks_done_S, dialogs_app, IH. reflexivity.
Qed.

End Observers.

(** ** The loop over the blocks *)

Section LoopFacts.

Variable w : World.
Variable reader : list page.
Variable df : DataFrame.
Variable p : Z.
Variable out : str.

Hypothesis p_pos : 0 < p.
Hypothesis has_column : columns df <> 0%nat.

Local Abbreviation total := (len reader).
Local Abbreviation steps := (PDFSplitter.total_steps_value (len reader) p).

Hypothesis enough_names : steps <= len (column0 df).

Local Abbreviation body :=
  (PDFSplitter.bloco w reader df p total steps out).
Local Abbreviation starts :=
  (List.map (fun k => Z.of_nat k * p)).
Local Abbreviation done := (Spec.chunks_done reader df p steps out).

Local Abbreviation loop_end := (Spec.loop_end w reader df p steps out).
Local Abbreviation loop_finished := (Spec.loop_finished w reader df p steps out).
Local Abbreviation loop_cancelled := (Spec.loop_cancelled w reader df p steps out).
Local Abbreviation loop_write_failed :=
  (Spec.loop_write_failed w reader df p steps out).

Lemma loop_run (m n : nat) (s : SplitterObject) :
  Z.of_nat (n + m) <= steps ->
  loop_end n m (for_each body n (starts (seq n m)) s).
Proof.
  revert n s. induction m as [|m IH]; intros n s Hm.
  - apply loop_finished.
  - cbn [seq List.map for_each]. unfold bind at 1.
    rewrite (bloco_run w reader df p out p_pos has_column enough_names) by lia.
    cbv zeta.
    set (s1 := if cancel_click w n then _ else s).
    destruct (cancel_operation s1) eqn:Hc.
    + apply (loop_cancelled n (S m) 0); [lia|exact Hc].
    + destruct (write w out _ _) as [[]|e] eqn:Hw.
      * specialize (IH (S n) s1 ltac:(lia)).
        destruct IH as [s'|k s' Hk Hs'|k s' e Hk He].
        -- apply loop_finished.
        -- rewrite app_assoc.
           apply (loop_cancelled n (S m) (S k)); [lia|exact Hs'].
        -- rewrite app_assoc.
           replace (S n + k)%nat with (n + S k)%nat in * by lia.
           apply (loop_write_failed n (S m) (S k)); [lia|exact He].
      * unfold ret.
        pose proof (loop_write_failed n (S m) 0 s1 e ltac:(lia)) as L.
        rewrite Nat.add_0_r in L. exact (L Hw).
Qed.

End LoopFacts.

(** ** A whole run of [dividir_pdf] *)

Section Run.

Variable w : World.
Variables pdf excel out : str.
Variable p : Z.
Variable df : DataFrame.
Variable reader : list page.

Hypothesis p_pos : 0 < p.
Hypothesis workbook : read_excel w excel = Return df.

Local Abbreviation steps := (PDFSplitter.total_steps_value (len reader) p).
Local Abbreviation done := (Spec.chunks_done reader df p steps out).
Local Abbreviation loop :=
  (for_each (PDFSplitter.bloco w reader df p (len reader) steps out) 0%nat
            (List.map (fun k => Z.of_nat k * p) (seq 0 (Z.to_nat steps)))).

(** An empty workbook stops the run at once. *)
Lemma run_empty (s : SplitterObject) :
  PDFSplitter.empty df = true ->
  PDFSplitter.dividir_pdf w pdf excel p out s
  = (Return false, s, [ShowError MsgPlanilhaVazia]).
Proof.
  intros E.
  unfold PDFSplitter.dividir_pdf, try_except, bind, lift,
    PDFSplitter.validate_excel_data.
  rewrite workbook, E. reflexivity.
Qed.

(** So does a null cell in the first column. *)
Lemma run_null (s : SplitterObject) :
  PDFSplitter.empty df = false ->
  PDFSplitter.column0_isnull_any df = true ->
  PDFSplitter.dividir_pdf w pdf excel p out s
  = (Return false, s, [ShowError MsgCelulasVazias]).
Proof.
  intros E N.
  unfold PDFSplitter.dividir_pdf, try_except, bind, lift,
    PDFSplitter.validate_excel_data.
  rewrite workbook, E, N. reflexivity.
Qed.

Hypothesis not_empty : PDFSplitter.empty df = false.
Hypothesis no_null : PDFSplitter.column0_isnull_any df = false.
Hypothesis document : PdfReader w pdf = Return reader.

Lemma has_column : columns df <> 0%nat.
Proof.
  unfold PDFSplitter.empty in not_empty.
  destruct (Nat.eqb_spec (columns df) 0); [discriminate|assumption].
Qed.

(** Too few names stop the run before the loop. *)
Lemma run_few_names (s : SplitterObject) :
  len (column0 df) < steps ->
  PDFSplitter.dividir_pdf w pdf excel p out s
  = (Return false, s, [ShowError (MsgMenosNomes (len (column0 df)) steps)]).
Proof.
  intros F.
  unfold PDFSplitter.dividir_pdf, try_except, bind, lift,
    PDFSplitter.validate_excel_data.
  rewrite workbook, not_empty, no_null. cbn.
  rewrite document, (total_steps_returns _ _ p_pos).
  rewrite Z.gtb_ltb. destruct (Z.ltb_spec (len (column0 df)) steps); [|lia].
  reflexivity.
Qed.

Hypothesis enough_names : steps <= len (column0 df).

(** With valid inputs the run is the loop, followed by the closing log
    line when the loop runs to its end. *)
Lemma run_loop (s : SplitterObject) :
  PDFSplitter.dividir_pdf w pdf excel p out s
  = match loop s with
    | (Return (Some b), s1, t) => (Return b, s1, t)
    | (Return None, s1, t) => (Return true, s1, t ++ [LogInfo LogConcluido])
    | (Raise e, s1, t) =>
        (Return false, s1,
         t ++ [LogError (LogErroProcessamento e);
               ShowError (MsgErroProcessamento e)])
    end.
Proof.
  unfold PDFSplitter.dividir_pdf, try_except, bind, lift,
    PDFSplitter.validate_excel_data.
  rewrite workbook, not_empty, no_null. cbn.
  rewrite document, (total_steps_returns _ _ p_pos).
  rewrite Z.gtb_ltb. destruct (Z.ltb_spec (len (column0 df)) steps); [lia|].
  assert (T : 0 <= len reader) by (unfold len; lia).
  rewrite (range_starts _ _ p_pos T).
  destruct (loop s) as [[[[b|]|e] s1] t]; cbn; rewrite ?app_nil_r; reflexivity.
Qed.

Lemma run_loop_end (s : SplitterObject) :
  Spec.loop_end w reader df p steps out 0 (Z.to_nat steps) (loop s).
Proof.
  apply (loop_run w reader df p out p_pos has_column enough_names).
  assert (T : 0 <= len reader) by (unfold len; lia).
  pose proof (steps_nonneg (len reader) p p_pos T). lia.
Qed.

End Run.

(** ** Runs that fail on their inputs, and what a successful run implies *)

Section Outcomes.

Variable w : World.
Variables pdf excel out : str.
Variable p : Z.

Lemma run_unreadable_workbook (e : exception) (s : SplitterObject) :
  read_excel w excel = Raise e ->
  PDFSplitter.dividir_pdf w pdf excel p out s
  = (Return false, s,
     [LogError (LogErroProcessamento e); ShowError (MsgErroProcessamento e)]).
Proof.
  intros E. unfold PDFSplitter.dividir_pdf, try_except, bind, lift.
  rewrite E. reflexivity.
Qed.

Lemma run_unreadable_document (df : DataFrame) (e : exception) (s : SplitterObject) :
  read_excel w excel = Return df ->
  PDFSplitter.empty df = false ->
  PDFSplitter.column0_isnull_any df = false ->
  PdfReader w pdf = Raise e ->
  PDFSplitter.dividir_pdf w pdf excel p out s
  = (Return false, s,
     [LogError (LogErroProcessamento e); ShowError (MsgErroProcessamento e)]).
Proof.
  intros W E N D.
  unfold PDFSplitter.dividir_pdf, try_except, bind, lift,
    PDFSplitter.validate_excel_data.
  rewrite W, E, N. cbn. rewrite D. reflexivity.
Qed.

Hypothesis p_pos : 0 < p.

(** A run that returns [True] has read both inputs, found the names valid
    and sufficient, and completed every chunk. *)
Lemma run_true (s s' : SplitterObject) (t : list event) :
  PDFSplitter.dividir_pdf w pdf excel p out s = (Return true, s', t) ->
  exists df reader,
    read_excel w excel = Return df
    /\ PdfReader w pdf = Return reader
    /\ PDFSplitter.empty df = false
    /\ PDFSplitter.column0_isnull_any df = false
    /\ PDFSplitter.total_steps_value (len reader) p <= len (column0 df)
    /\ t = Spec.chunks_done reader df p
             (PDFSplitter.total_steps_value (len reader) p) out 0
             (Z.to_nat (PDFSplitter.total_steps_value (len reader) p))
           ++ [LogInfo LogConcluido].
Proof.
  intros R.
  destruct (read_excel w excel) as [df|e] eqn:W.
  2:{ rewrite (run_unreadable_workbook e s W) in R. discriminate. }
  destruct (PDFSplitter.empty df) eqn:E.
  1:{ rewrite (run_empty w pdf excel out p df W s E) in R. discriminate. }
  destruct (PDFSplitter.column0_isnull_any df) eqn:N.
  1:{ rewrite (run_null w pdf excel out p df W s E N) in R. discriminate. }
  destruct (PdfReader w pdf) as [reader|e] eqn:D.
  2:{ rewrite (run_unreadable_document df e s W E N D) in R. discriminate. }
  destruct (Z.lt_ge_cases (len (column0 df))
              (PDFSplitter.total_steps_value (len reader) p)) as [F|F].
  1:{ rewrite (run_few_names w pdf excel out p df reader p_pos W E N D s F) in R.
      discriminate. }
  exists df, reader. repeat split; try assumption.
  rewrite (run_loop w pdf excel out p df reader p_pos W E N D F s) in R.
  pose proof (run_loop_end w out p df reader p_pos E F s) as L.
  inversion L as [s1 H|k s1 Hk Hs1 H|k s1 e Hk He H];
    rewrite <- H in R; try discriminate.
  now injection R as _ <-.
Qed.

(** In every run the progress values are those of the first chunks, as
    many as were completed; all of them when the run returns [True]. *)
Lemma run_progress (reader : list page) (s : SplitterObject) :
  PdfReader w pdf = Return reader ->
  exists k,
    (k <= Z.to_nat (PDFSplitter.total_steps_value (len reader) p))%nat
    /\ Trace.progress (snd (PDFSplitter.dividir_pdf w pdf excel p out s))
       = List.map
           (Spec.progress_after (PDFSplitter.total_steps_value (len reader) p))
           (seq 0 k)
    /\ (fst (fst (PDFSplitter.dividir_pdf w pdf excel p out s)) = Return true ->
        k = Z.to_nat (PDFSplitter.total_steps_value (len reader) p)).
Proof.
  intros D.
  destruct (read_excel w excel) as [df|e] eqn:W.
  2:{ rewrite (run_unreadable_workbook e s W). exists 0%nat.
      repeat split; [lia|discriminate]. }
  destruct (PDFSplitter.empty df) eqn:E.
  1:{ rewrite (run_empty w pdf excel out p df W s E). exists 0%nat.
      repeat split; [lia|discriminate]. }
  destruct (PDFSplitter.column0_isnull_any df) eqn:N.
  1:{ rewrite (run_null w pdf excel out p df W s E N). exists 0%nat.
      repeat split; [lia|discriminate]. }
  destruct (Z.lt_ge_cases (len (column0 df))
              (PDFSplitter.total_steps_value (len reader) p)) as [F|F].
  1:{ rewrite (run_few_names w pdf excel out p df reader p_pos W E N D s F).
      exists 0%nat. repeat split; [lia|discriminate]. }
  rewrite (run_loop w pdf excel out p df reader p_pos W E N D F s).
  pose proof (run_loop_end w out p df reader p_pos E F s) as L.
  inversion L as [s1 H|k s1 Hk Hs1 H|k s1 e Hk He H]; cbn [fst snd].
  - eexists. rewrite progress_app, progress_done, app_nil_r.
    repeat split. lia.
  - exists k. rewrite progress_app, progress_done, app_nil_r.
    repeat split; [lia|discriminate].
  - exists k. rewrite progress_app, progress_done, app_nil_r.
    repeat split; [lia|discriminate].
Qed.

End Outcomes.

(** ** Cancellation *)

Section Cancel.

Variable w : World.
Variable reader : list page.
Variable df : DataFrame.
Variable p : Z.
Variable out : str.

Hypothesis p_pos : 0 < p.
Hypothesis has_column : columns df <> 0%nat.

Local Abbreviation steps := (PDFSplitter.total_steps_value (len reader) p).

Hypothesis enough_names : steps <= len (column0 df).

(** Cancelar pressed once [k] more chunks are done: the loop completes
    these [k] chunks and returns at the next poll. *)
Lemma loop_cancel (k n m : nat) (s : SplitterObject) :
  Z.of_nat (n + m) <= steps ->
  (k < m)%nat ->
  cancel_operation s = false ->
  (forall j, (n <= j < n + k)%nat -> cancel_click w j = false) ->
  cancel_click w (n + k) = true ->
  (forall j, (n <= j < n + k)%nat ->
             write w out (Spec.chunk_name df j) (Spec.chunk_pages reader p j)
             = Return tt) ->
  for_each (PDFSplitter.bloco w reader df p (len reader) steps out) n
           (List.map (fun i => Z.of_nat i * p) (seq n m)) s
  = (Return (Some false), {| cancel_operation := true |},
     Spec.chunks_done reader df p steps out n k ++ [LogInfo LogCancelada]).
Proof.
  revert n m s. induction k as [|k IH]; intros n m s Hm Hk Hs Hno Hyes Hw;
    (destruct m as [|m]; [lia|]);
    cbn [seq List.map for_each]; unfold bind at 1;
    rewrite (bloco_run w reader df p out p_pos has_column enough_names) by lia;
    cbv zeta.
  - rewrite Nat.add_0_r in Hyes. rewrite Hyes. reflexivity.
  - rewrite (Hno n) by lia. rewrite Hs, (Hw n) by lia.
    rewrite (IH (S n) m s); try assumption; try lia.
    + reflexivity.
    + intros j Hj. apply Hno. lia.
    + now replace (S n + k)%nat with (n + S k)%nat by lia.
    + intros j Hj. apply Hw. lia.
Qed.

End Cancel.

(** ** The shell around the splitter *)

Section Shell.

Variable w : World.
Variable f : Application.Fields.
Variable p : Z.

Hypothesis filled :
  forallb Application.truthy
          [Application.pdf_path f; Application.excel_path f;
           Application.output_folder f] = true.
Hypothesis numeric : isdigit (Application.paginas_por_arquivo f) = true.
Hypothesis value : int (Application.paginas_por_arquivo f) = Return p.

(** With accepted fields, [iniciar_divisao] clears the flag, runs the
    splitter, and picks the closing dialog from the result and the flag. *)
Lemma iniciar_divisao_run (s : SplitterObject) :
  Application.iniciar_divisao w f s
  = match PDFSplitter.dividir_pdf w (Application.pdf_path f)
            (Application.excel_path f) p (Application.output_folder f)
            {| cancel_operation := false |} with
    | (Return true, s1, t) => (Return tt, s1, t ++ [ShowInfo MsgConcluido])
    | (Return false, s1, t) =>
        if cancel_operation s1 then (Return tt, s1, t)
        else (Return tt, s1, t ++ [ShowError MsgOcorreuErro])
    | (Raise e, s1, t) => (Raise e, s1, t)
    end.
Proof.
  unfold Application.iniciar_divisao, Application.validar_campos, bind,
    set_cancel_operation, get_cancel_operation, lift, emit, ret.
  rewrite filled, numeric, value. cbn.
  destruct (PDFSplitter.dividir_pdf _ _ _ _ _ _) as [[[[|]|e] s1] t]; cbn.
  - reflexivity.
  - destruct (cancel_operation s1); cbn; now rewrite ?app_nil_r.
  - reflexivity.
Qed.

End Shell.

(** ** Progress values *)

Section ProgressValues.

Variable required : Z.
Hypothesis required_pos : 0 < required.

(** The value after chunk [i + 1] is above the value after chunk [i], for
    fewer than 2^48 chunks: the two exact values are at least one part in
    2^48 apart, and the two roundings move each by at most one part in
    2^52 twice. *)
Lemma progress_after_step (i : nat) :
  Z.of_nat i + 2 <= required ->
  required < 2 ^ 48 ->
  float_lt (Spec.progress_after required i)
           (Spec.progress_after required (S i)) = true.
Proof.
  intros Hi Hr. unfold Spec.progress_after.
  replace (Z.of_nat (S i) + 1) with (Z.of_nat i + 1 + 1) by lia.
  apply scaled_quotient_increases; lia.
Qed.

Lemma progress_after_increasing (n m : nat) :
  Z.of_nat (n + m) <= required ->
  required < 2 ^ 48 ->
  Spec.strictly_increasing
    (List.map (Spec.progress_after required) (seq n m)).
Proof.
  intros Hnm Hr. revert n Hnm.
  induction m as [|m IH]; intros n Hnm; [exact I|].
  specialize (IH (S n) ltac:(lia)). cbn [seq List.map] in *.
  destruct m as [|m]; [exact I|].
  cbn [seq List.map] in *.
  split; [apply progress_after_step; lia|exact IH].
Qed.

(** The value after the last chunk is 100.0: a number divided by itself
    is 1.0 exactly, whatever its size. *)
Lemma progress_after_last :
  Spec.progress_after required (Z.to_nat required - 1) = hundred.
Proof.
  unfold Spec.progress_after.
  replace (Z.of_nat (Z.to_nat required - 1) + 1) with required by lia.
  apply scaled_quotient_full. lia.
Qed.

End ProgressValues.

(** The values are rounded ones.  With three chunks the first value is
    33.33333333333333, the float just below the one nearest to 100/3: the
    quotient 1/3 is rounded, and so is its product by 100.0. *)
Lemma progress_after_first_of_three :
  Spec.progress_after 3 0 = S754_finite false 4691249611844266 (-47)
  /\ (inject_Z 4691249611844266 * 2 ^ (-47) < 100 # 3)%Q
  /\ Spec.progress_after 3 1 = S754_finite false 4691249611844266 (-46)
  /\ Spec.progress_after 3 2 = hundred.
Proof. repeat split. Qed.

(** ** What a successful run has written *)

Lemma run_true_written (w : World) (pdf excel out : str) (p : Z)
    (s s' : SplitterObject) (t : list event) (reader : list page) :
  0 < p ->
  PdfReader w pdf = Return reader ->
  PDFSplitter.dividir_pdf w pdf excel p out s = (Return true, s', t) ->
  exists df,
    read_excel w excel = Return df
    /\ Trace.written t
       = List.map (fun i => (out, Spec.chunk_name df i, Spec.chunk_pages reader p i))
           (seq 0 (Z.to_nat (Spec.required_chunk_count (len reader) p))).
Proof.
  intros Hp D R.
  destruct (run_true w pdf excel out p Hp s s' t R)
    as [df [reader' [W [D' [E [N [F T]]]]]]].
  rewrite D in D'. injection D' as <-.
  exists df. split; [exact W|].
  rewrite <- (steps_ceiling _ _ Hp).
  rewrite T, written_app, written_done. apply app_nil_r.
Qed.

(** * The claims *)

(** C1: round trip.  On a successful run with a positive number of pages
    per file, the page sequences of the documents written, put end to end
    in the order they were written, are the original page sequence, and the
    chunk of index i holds the pages from i * pagesPerFile up to
    min((i+1) * pagesPerFile, totalPages), in the original order. *)
Theorem split_round_trip (w : World) (pdf excel out : str) (p : Z)
    (s s' : SplitterObject) (t : list event) (reader : list page) :
  0 < p ->
  PdfReader w pdf = Return reader ->
  PDFSplitter.dividir_pdf w pdf excel p out s = (Return true, s', t) ->
  List.concat (Trace.chunks t) = reader
  /\ Trace.chunks t
     = List.map (Spec.chunk_pages reader p)
                (seq 0 (Z.to_nat (Spec.required_chunk_count (len reader) p))).
Proof.
  intros Hp D R.
  destruct (run_true_written w pdf excel out p s s' t reader Hp D R) as [df [_ T]].
  assert (C : Trace.chunks t
              = List.map (Spec.chunk_pages reader p)
                  (seq 0 (Z.to_nat (Spec.required_chunk_count (len reader) p)))).
  { unfold Trace.chunks. rewrite T, map_map. reflexivity. }
  revert C. rewrite <- (steps_ceiling _ _ Hp).
  set (steps := PDFSplitter.total_steps_value (len reader) p). intros C.
  split; [|exact C].
  rewrite C.
  rewrite (map_ext _ (fun i => firstn (Z.to_nat p) (skipn (i * Z.to_nat p) reader)))
    by (intros i; now apply chunk_pages_block).
  rewrite concat_blocks. cbn [Nat.mul skipn].
  apply firstn_all2.
  pose proof (steps_bounds (len reader) p Hp) as B. fold steps in B.
  unfold len in B. nia.
Qed.

(** C2: the number of chunks.  For a document of totalPages >= 0 pages and
    a positive pagesPerFile, the count computed before the loop (the one
    compared with the number of names and used as the denominator of the
    progress) is ceil(totalPages / pagesPerFile), the loop has that many
    iterations, and a successful run writes that many documents.  For 10
    pages and 3 pages per file it is 4, with chunks of 3, 3, 3 and 1
    pages. *)
Theorem chunk_count :
  (forall total p : Z,
      0 <= total -> 0 < p ->
      PDFSplitter.total_steps total p
      = Return (Spec.required_chunk_count total p)
      /\ exists starts,
          range 0 total p = Return starts
          /\ len starts = Spec.required_chunk_count total p)
  /\ (forall (w : World) (pdf excel out : str) (p : Z)
             (s s' : SplitterObject) (t : list event) (reader : list page),
         0 < p ->
         PdfReader w pdf = Return reader ->
         PDFSplitter.dividir_pdf w pdf excel p out s = (Return true, s', t) ->
         len (Trace.written t) = Spec.required_chunk_count (len reader) p)
  /\ Spec.required_chunk_count 10 3 = 4
  /\ List.map (@List.length page)
       (Trace.chunks
          (snd (PDFSplitter.dividir_pdf
                  (Sample.world 10 ["A"; "B"; "C"; "D"]%string Sample.never)
                  (lit "doc.pdf") (lit "nomes.xlsx") 3 (lit "out")
                  Sample.idle)))
     = [3; 3; 3; 1]%nat.
Proof.
  split; [|split; [|split; reflexivity]].
  - intros total p Ht Hp. rewrite <- (steps_ceiling _ _ Hp). split.
    + now apply total_steps_returns.
    + eexists. split; [now apply range_starts|].
      unfold len. rewrite length_map, length_seq.
      pose proof (steps_nonneg total p Hp Ht). lia.
  - intros w pdf excel out p s s' t reader Hp D R.
    destruct (run_true_written w pdf excel out p s s' t reader Hp D R) as [df [_ T]].
    rewrite T. unfold len at 1. rewrite length_map, length_seq.
    rewrite <- (steps_ceiling _ _ Hp).
    assert (Tn : 0 <= len reader) by (unfold len; lia).
    pose proof (steps_nonneg (len reader) p Hp Tn). lia.
Qed.

(** C3: too few names.  When the name list is valid but shorter than the
    required chunk count, the run returns False after one error dialog that
    gives both counts, and no document is written: the trace holds nothing
    but that dialog, and the state of the splitter is untouched. *)
Theorem insufficient_names (w : World) (pdf excel out : str) (p : Z)
    (s : SplitterObject) (df : DataFrame) (reader : list page) :
  0 < p ->
  read_excel w excel = Return df ->
  PDFSplitter.empty df = false ->
  PDFSplitter.column0_isnull_any df = false ->
  PdfReader w pdf = Return reader ->
  len (column0 df) < Spec.required_chunk_count (len reader) p ->
  PDFSplitter.dividir_pdf w pdf excel p out s
  = (Return false, s,
     [ShowError (MsgMenosNomes (len (column0 df))
                               (Spec.required_chunk_count (len reader) p))])
  /\ Trace.written (snd (PDFSplitter.dividir_pdf w pdf excel p out s)) = [].
Proof.
  intros Hp W E N D F.
  rewrite <- (steps_ceiling _ _ Hp) in *.
  rewrite (run_few_names w pdf excel out p df reader Hp W E N D s F).
  split; reflexivity.
Qed.

(** C4: invalid name source.  When the workbook is empty, or some cell of
    its first column is null, the run returns False after one of the two
    dialogs that report an invalid name source and nothing else happens: no
    document is written, and neither the document, the number of pages per
    file nor the output folder is looked at (the result is the same
    whatever they are). *)
Theorem invalid_name_source (w : World) (pdf excel out : str) (p : Z)
    (s : SplitterObject) (df : DataFrame) :
  read_excel w excel = Return df ->
  PDFSplitter.empty df = true \/ In None (column0 df) ->
  exists m,
    Spec.InvalidInput m
    /\ PDFSplitter.dividir_pdf w pdf excel p out s
       = (Return false, s, [ShowError m])
    /\ Trace.written (snd (PDFSplitter.dividir_pdf w pdf excel p out s)) = [].
Proof.
  intros W H.
  destruct (PDFSplitter.empty df) eqn:E.
  - exists MsgPlanilhaVazia.
    rewrite (run_empty w pdf excel out p df W s E).
    repeat split. now left.
  - destruct H as [H|H]; [discriminate|].
    assert (N : PDFSplitter.column0_isnull_any df = true).
    { unfold PDFSplitter.column0_isnull_any. apply existsb_exists.
      exists None. now split. }
    exists MsgCelulasVazias.
    rewrite (run_null w pdf excel out p df W s E N).
    repeat split. now right.
Qed.

(** C9: a document without pages.  With valid names and a positive number
    of pages per file, the run on a document of zero pages returns True,
    writes no document and reports no progress: all it does is log the
    completion. *)
Theorem empty_document (w : World) (pdf excel out : str) (p : Z)
    (s : SplitterObject) (df : DataFrame) :
  0 < p ->
  read_excel w excel = Return df ->
  PDFSplitter.empty df = false ->
  PDFSplitter.column0_isnull_any df = false ->
  PdfReader w pdf = Return [] ->
  PDFSplitter.total_steps 0 p = Return 0
  /\ PDFSplitter.dividir_pdf w pdf excel p out s
     = (Return true, s, [LogInfo LogConcluido])
  /\ Trace.written (snd (PDFSplitter.dividir_pdf w pdf excel p out s)) = []
  /\ Trace.progress (snd (PDFSplitter.dividir_pdf w pdf excel p out s)) = [].
Proof.
  intros Hp W E N D.
  assert (Z0 : PDFSplitter.total_steps_value (len (@nil page)) p = 0).
  { unfold PDFSplitter.total_steps_value, len. simpl List.length.
    change (Z.of_nat 0) with 0. now rewrite Z.div_0_l, Z.mod_0_l by lia. }
  assert (F : PDFSplitter.total_steps_value (len (@nil page)) p
              <= len (column0 df)) by (rewrite Z0; unfold len; lia).
  split.
  - rewrite (total_steps_returns 0 p Hp). exact (f_equal Return Z0).
  - rewrite (run_loop w pdf excel out p df [] Hp W E N D F s).
    rewrite Z0. repeat split.
Qed.

(** C6, amended: cancellation.  With accepted fields, valid and sufficient
    names and a readable document, when Cancelar is pressed once k chunks are
    completed (k below the required chunk count, the first k writes having
    succeeded), the splitter returns at the next poll: exactly the first k
    documents are written and stay written, the log ends with the
    cancellation line, and the shell shows no dialog at all.  A run that
    returns False without the flag set is closed by the error dialog
    instead, which is how a cancellation differs from an error for the
    operator. *)
Theorem cancelled_run :
  (forall (w : World) (f : Application.Fields) (s : SplitterObject)
          (df : DataFrame) (reader : list page) (p : Z) (k : nat),
      forallb Application.truthy
              [Application.pdf_path f; Application.excel_path f;
               Application.output_folder f] = true ->
      isdigit (Application.paginas_por_arquivo f) = true ->
      int (Application.paginas_por_arquivo f) = Return p ->
      0 < p ->
      read_excel w (Application.excel_path f) = Return df ->
      PDFSplitter.empty df = false ->
      PDFSplitter.column0_isnull_any df = false ->
      PdfReader w (Application.pdf_path f) = Return reader ->
      Spec.required_chunk_count (len reader) p <= len (column0 df) ->
      Z.of_nat k < Spec.required_chunk_count (len reader) p ->
      (forall j, (j < k)%nat -> cancel_click w j = false) ->
      cancel_click w k = true ->
      (forall j, (j < k)%nat ->
                 write w (Application.output_folder f) (Spec.chunk_name df j)
                       (Spec.chunk_pages reader p j) = Return tt) ->
      let t := Spec.chunks_done reader df p
                 (Spec.required_chunk_count (len reader) p)
                 (Application.output_folder f) 0 k
               ++ [LogInfo LogCancelada] in
      PDFSplitter.dividir_pdf w (Application.pdf_path f)
        (Application.excel_path f) p (Application.output_folder f)
        {| cancel_operation := false |}
      = (Return false, {| cancel_operation := true |}, t)
      /\ Application.iniciar_divisao w f s
         = (Return tt, {| cancel_operation := true |}, t)
      /\ Trace.written t
         = List.map (fun i => (Application.output_folder f,
                               Spec.chunk_name df i,
                               Spec.chunk_pages reader p i)) (seq 0 k)
      /\ List.length (Trace.written t) = k
      /\ Trace.dialogs t = []
      /\ exists before, Trace.logged t = before ++ [LogCancelada])
  /\ (forall (w : World) (f : Application.Fields) (s s1 : SplitterObject)
             (p : Z) (t1 : list event),
         forallb Application.truthy
                 [Application.pdf_path f; Application.excel_path f;
                  Application.output_folder f] = true ->
         isdigit (Application.paginas_por_arquivo f) = true ->
         int (Application.paginas_por_arquivo f) = Return p ->
         PDFSplitter.dividir_pdf w (Application.pdf_path f)
           (Application.excel_path f) p (Application.output_folder f)
           {| cancel_operation := false |}
         = (Return false, s1, t1) ->
         cancel_operation s1 = false ->
         Application.iniciar_divisao w f s
         = (Return tt, s1, t1 ++ [ShowError MsgOcorreuErro])).
Proof.
  split.
  - intros w f s df reader p k Hf Hd Hv Hp W E N D F Hk Hno Hyes Hw t.
    assert (Tn : 0 <= len reader) by (unfold len; lia).
    revert t F Hk. rewrite <- (steps_ceiling _ _ Hp).
    set (steps := PDFSplitter.total_steps_value (len reader) p).
    intros t F Hk.
    assert (R : PDFSplitter.dividir_pdf w (Application.pdf_path f)
                  (Application.excel_path f) p (Application.output_folder f)
                  {| cancel_operation := false |}
                = (Return false, {| cancel_operation := true |}, t)).
    { rewrite (run_loop w _ _ _ p df reader Hp W E N D F).
      rewrite (loop_cancel w reader df p _ Hp
                 (has_column df E) F k 0 (Z.to_nat steps)); try reflexivity.
      - pose proof (steps_nonneg (len reader) p Hp Tn). fold steps in H. lia.
      - lia.
      - intros j Hj. apply Hno. lia.
      - exact Hyes.
      - intros j Hj. apply Hw. lia. }
    split; [exact R|]. split.
    { rewrite (iniciar_divisao_run w f p Hf Hd Hv s), R. reflexivity. }
    unfold t.
    rewrite written_app, dialogs_app, logged_app, written_done, dialogs_done.
    rewrite app_nil_r, length_map, length_seq. repeat split.
    eexists. reflexivity.
  - intros w f s s1 p t1 Hf Hd Hv R Hs.
    rewrite (iniciar_divisao_run w f p Hf Hd Hv s), R, Hs. reflexivity.
Qed.

(** C6, as stated, fails: the cancelled run is reported to the operator by
    no message at all.  With Cancelar pressed after two chunks of four, two
    documents are written, the flag is set, the log holds the line of the
    cancellation, and no dialog, neither of information nor of error, is
    shown when the run ends. *)
Lemma cancelled_run_shows_no_message :
  let w := Sample.world 10 ["A"; "B"; "C"; "D"]%string (Sample.after 2) in
  let r := Application.iniciar_divisao w (Sample.fields "3") Sample.idle in
  List.length (Trace.written (snd r)) = 2%nat
  /\ cancel_operation (snd (fst r)) = true
  /\ In LogCancelada (Trace.logged (snd r))
  /\ ~ (exists m, In (ShowInfo m) (snd r) \/ In (ShowError m) (snd r)).
Proof.
  repeat split.
  - vm_compute. intuition.
  - intros [m [H|H]]; vm_compute in H; intuition discriminate.
Qed.

(** C7, amended: progress.  For a readable document and a positive number
    of pages per file, the progress values of a run are, in order, the
    floats (i+1) / requiredChunkCount * 100 for the chunks i completed,
    the quotient and the product each rounded to binary64; they increase
    strictly when there are fewer than 2^48 chunks; a successful run
    reports one value per chunk, and when the document has at least one
    page the last value is 100.0 exactly.  (A successful run on a document
    without pages reports no value.) *)
Theorem progress_values (w : World) (pdf excel out : str) (p : Z)
    (s : SplitterObject) (reader : list page) :
  0 < p ->
  PdfReader w pdf = Return reader ->
  let run := PDFSplitter.dividir_pdf w pdf excel p out s in
  let required := Spec.required_chunk_count (len reader) p in
  exists k,
    (k <= Z.to_nat required)%nat
    /\ Trace.progress (snd run)
       = List.map (Spec.progress_after required) (seq 0 k)
    /\ (required < 2 ^ 48 ->
        Spec.strictly_increasing (Trace.progress (snd run)))
    /\ (fst (fst run) = Return true ->
        k = Z.to_nat required
        /\ (1 <= len reader ->
            exists before,
              Trace.progress (snd run) = before ++ [hundred])).
Proof.
  intros Hp D run required.
  assert (Tn : 0 <= len reader) by (unfold len; lia).
  destruct (run_progress w pdf excel out p Hp reader s D) as [k [Hk [P Hall]]].
  fold run in P, Hall. revert P Hall Hk.
  rewrite (steps_ceiling _ _ Hp). fold required. intros P Hall Hk.
  exists k. split; [exact Hk|]. split; [exact P|]. split.
  - intros Hb. rewrite P. destruct (Z.lt_ge_cases 0 required) as [Hr|Hr].
    + apply progress_after_increasing; [lia|exact Hb].
    + replace k with 0%nat by lia. exact I.
  - intros T. specialize (Hall T). split; [exact Hall|]. intros H1.
    assert (Hr : 0 < required).
    { unfold required. rewrite <- (steps_ceiling _ _ Hp).
      pose proof (steps_bounds (len reader) p Hp). nia. }
    exists (List.map (Spec.progress_after required) (seq 0 (Z.to_nat required - 1))).
    rewrite P, Hall.
    replace (Z.to_nat required) with (S (Z.to_nat required - 1)) at 1 by lia.
    rewrite seq_S, map_app. cbn [List.map Nat.add].
    now rewrite (progress_after_last required Hr).
Qed.

(** C7, as stated, fails: the run on a document without pages succeeds and
    reports no progress value, so its progress does not end at 100.0. *)
Lemma progress_without_pages :
  let run := PDFSplitter.dividir_pdf
               (Sample.world 0 ["A"]%string Sample.never)
               (lit "doc.pdf") (lit "nomes.xlsx") 3 (lit "out") Sample.idle in
  fst (fst run) = Return true
  /\ ~ (exists before, Trace.progress (snd run) = before ++ [hundred]).
Proof.
  split; [reflexivity|].
  intros [before H]. cbn in H.
  destruct before; discriminate.
Qed.

(** C8 fails on the field "0": the field validation accepts it, the value
    handed to the splitter is 0, and the splitter divides by it. *)
Theorem zero_pages_per_file :
  Application.validar_campos (Sample.fields "0") Sample.idle
  = (Return true, Sample.idle, [])
  /\ int (Application.paginas_por_arquivo (Sample.fields "0")) = Return 0
  /\ PDFSplitter.total_steps 10 0 = Raise ZeroDivisionError
  /\ Application.iniciar_divisao
       (Sample.world 10 ["A"; "B"; "C"; "D"]%string Sample.never)
       (Sample.fields "0") Sample.idle
     = (Return tt, Sample.idle,
        [LogError (LogErroProcessamento ZeroDivisionError);
         ShowError (MsgErroProcessamento ZeroDivisionError);
         ShowError MsgOcorreuErro]).
Proof. repeat split. Qed.

(** * The claims on sample runs *)

(** A document of ten pages split by three, with four names. *)
Lemma split_round_trip_sample :
  let w := Sample.world 10 ["A"; "B"; "C"; "D"]%string Sample.never in
  let run := PDFSplitter.dividir_pdf w (lit "doc.pdf") (lit "nomes.xlsx") 3
               (lit "out") Sample.idle in
  fst (fst run) = Return true
  /\ List.concat (Trace.chunks (snd run)) = Sample.document 10
  /\ Trace.chunks (snd run)
     = List.map (Spec.chunk_pages (Sample.document 10) 3)
                (seq 0 (Z.to_nat (Spec.required_chunk_count
                                    (len (Sample.document 10)) 3))).
Proof.
  intros w run. split; [reflexivity|].
  apply (split_round_trip w (lit "doc.pdf") (lit "nomes.xlsx") (lit "out") 3
           Sample.idle (snd (fst run)) (snd run) (Sample.document 10));
    [lia|reflexivity|reflexivity].
Defined.

(** The same run writes four documents. *)
Lemma chunk_count_sample :
  let w := Sample.world 10 ["A"; "B"; "C"; "D"]%string Sample.never in
  let run := PDFSplitter.dividir_pdf w (lit "doc.pdf") (lit "nomes.xlsx") 3
               (lit "out") Sample.idle in
  PDFSplitter.total_steps 10 3 = Return (Spec.required_chunk_count 10 3)
  /\ len (Trace.written (snd run))
     = Spec.required_chunk_count (len (Sample.document 10)) 3.
Proof.
  intros w run. split.
  - apply (proj1 chunk_count 10 3); lia.
  - apply (proj1 (proj2 chunk_count) w (lit "doc.pdf") (lit "nomes.xlsx")
             (lit "out") 3 Sample.idle (snd (fst run)) (snd run)
             (Sample.document 10));
      [lia|reflexivity|reflexivity].
Defined.

(** Ten pages by three with only three names. *)
Lemma insufficient_names_sample :
  let w := Sample.world 10 ["A"; "B"; "C"]%string Sample.never in
  let run := PDFSplitter.dividir_pdf w (lit "doc.pdf") (lit "nomes.xlsx") 3
               (lit "out") Sample.idle in
  run = (Return false, Sample.idle, [ShowError (MsgMenosNomes 3 4)])
  /\ Trace.written (snd run) = [].
Proof.
  intros w run.
  apply (insufficient_names w (lit "doc.pdf") (lit "nomes.xlsx") (lit "out") 3
           Sample.idle (Sample.names ["A"; "B"; "C"]%string)
           (Sample.document 10));
    [lia|reflexivity|reflexivity|reflexivity|reflexivity|vm_compute; reflexivity].
Defined.

(** A workbook whose second row is null. *)
Lemma invalid_name_source_sample :
  let df := {| columns := 1; column0 := [Some (lit "A"); None; Some (lit "C")] |} in
  let w := {| read_excel := fun _ => Return df;
              PdfReader := fun _ => Return (Sample.document 10);
              write := fun _ _ _ => Return tt;
              cancel_click := Sample.never |} in
  exists m,
    Spec.InvalidInput m
    /\ PDFSplitter.dividir_pdf w (lit "doc.pdf") (lit "nomes.xlsx") 3
         (lit "out") Sample.idle
       = (Return false, Sample.idle, [ShowError m])
    /\ Trace.written
         (snd (PDFSplitter.dividir_pdf w (lit "doc.pdf") (lit "nomes.xlsx") 3
                 (lit "out") Sample.idle)) = [].
Proof.
  intros df w.
  apply (invalid_name_source w (lit "doc.pdf") (lit "nomes.xlsx") (lit "out") 3
           Sample.idle df); [reflexivity|].
  right. simpl. right. left. reflexivity.
Defined.

(** The name of the first chunk, from a cell that needs sanitizing. *)
Lemma resolved_filename_sample :
  PDFSplitter.novo_nome (Sample.names [" a:b "%string]) 0 2
  = Return (PDFSplitter.sanitize_filename (lit " a:b ") ++ lit ".pdf").
Proof.
  apply (proj1 (proj2 resolved_filename) (Sample.names [" a:b "%string]) 0 2 0
           (Some (lit " a:b "))); reflexivity.
Defined.

(** Cancelar pressed after two chunks of four. *)
Lemma cancelled_run_sample :
  let w := Sample.world 10 ["A"; "B"; "C"; "D"]%string (Sample.after 2) in
  let f := Sample.fields "3" in
  exists t,
    Application.iniciar_divisao w f Sample.idle
    = (Return tt, {| cancel_operation := true |}, t)
    /\ List.length (Trace.written t) = 2%nat
    /\ Trace.dialogs t = [].
Proof.
  intros w f.
  destruct (proj1 cancelled_run w f Sample.idle
              (Sample.names ["A"; "B"; "C"; "D"]%string) (Sample.document 10)
              3 2%nat)
    as [_ [R [_ [L [G _]]]]];
    try reflexivity; try lia.
  - intros j Hj. destruct j as [|[|j]]; [reflexivity|reflexivity|lia].
  - eexists. split; [exact R|]. split; [exact L|exact G].
Defined.

(** The progress of the ten pages split by three. *)
Lemma progress_values_sample :
  let w := Sample.world 10 ["A"; "B"; "C"; "D"]%string Sample.never in
  let run := PDFSplitter.dividir_pdf w (lit "doc.pdf") (lit "nomes.xlsx") 3
               (lit "out") Sample.idle in
  exists k,
    (k <= 4)%nat
    /\ Trace.progress (snd run) = List.map (Spec.progress_after 4) (seq 0 k)
    /\ Spec.strictly_increasing (Trace.progress (snd run)).
Proof.
  intros w run.
  destruct (progress_values w (lit "doc.pdf") (lit "nomes.xlsx") (lit "out") 3
              Sample.idle (Sample.document 10))
    as [k [Hk [P [I _]]]]; [lia|reflexivity|].
  exists k. split; [exact Hk|]. split; [exact P|apply I; reflexivity].
Defined.

(** A document without pages. *)
Lemma empty_document_sample :
  let w := Sample.world 0 ["A"]%string Sample.never in
  PDFSplitter.dividir_pdf w (lit "doc.pdf") (lit "nomes.xlsx") 3 (lit "out")
    Sample.idle
  = (Return true, Sample.idle, [LogInfo LogConcluido]).
Proof.
  intros w.
  apply (empty_document w (lit "doc.pdf") (lit "nomes.xlsx") (lit "out") 3
           Sample.idle (Sample.names ["A"]%string));
    [lia|reflexivity|reflexivity|reflexivity|reflexivity].
Defined.


(** * Further properties of the code *)

(** ** The flag during the loop *)

Section Flag.

Variable w : World.
Variable reader : list page.
Variable df : DataFrame.
Variable p : Z.
Variable out : str.

Hypothesis p_pos : 0 < p.
Hypothesis has_column : columns df <> 0%nat.

Local Abbreviation steps := (PDFSplitter.total_steps_value (len reader) p).

Hypothesis enough_names : steps <= len (column0 df).

Lemma in_logged (l : log_line) (t : list event) :
  In (LogInfo l) t -> In l (Trace.logged t).
Proof.
  induction t as [|ev t IH]; [intros []|].
  destruct ev; simpl; intros [H|H];
    try discriminate; try (right; now apply IH); try (now apply IH).
  left. now injection H.
Qed.

Lemma logged_done (required : Z) (n m : nat) :
  Trace.logged (Spec.chunks_done reader df p required out n m)
  = List.map (fun i => LogCriado (Spec.chunk_name df i)) (seq n m).
Proof.
  revert n. induction m as [|m IH]; intros n; [reflexivity|].
  rewrite chunks_done_S, logged_app, IH. reflexivity.
Qed.

Lemma done_not_cancelled (required : Z) (n m : nat) (tail : list event) :
  ~ In (LogInfo LogCancelada) tail ->
  ~ In (LogInfo LogCancelada)
       (Spec.chunks_done reader df p required out n m ++ tail).
Proof.
  intros Ht H. apply in_app_or in H. destruct H as [H|H]; [|now apply Ht].
  apply in_logged in H. rewrite logged_done in H.
  apply in_map_iff in H. destruct H as [i [H _]]. discriminate.
Qed.

(** The loop leaves the splitter as it found it, unless it was cancelled. *)
Lemma loop_state (m n : nat) (s : SplitterObject) :
  Z.of_nat (n + m) <= steps ->
  let r := for_each (PDFSplitter.bloco w reader df p (len reader) steps out) n
             (List.map (fun i => Z.of_nat i * p) (seq n m)) s in
  snd (fst r) = s \/ In (LogInfo LogCancelada) (snd r).
Proof.
  revert n s. induction m as [|m IH]; intros n s Hm; cbv zeta; [now left|].
  cbn [seq List.map for_each]. unfold bind.
  rewrite (bloco_run w reader df p out p_pos has_column enough_names) by lia.
  cbv zeta.
  destruct (cancel_click w n); cbn [cancel_operation].
  - right. cbn. now left.
  - destruct (cancel_operation s) eqn:Hc; [right; cbn; now left|].
    destruct (write w out _ _) as [[]|e]; [|now left].
    specialize (IH (S n) s ltac:(lia)). cbv zeta in IH.
    destruct (for_each _ _ _ s) as [[r s1] t1]. cbn [fst snd] in *.
    destruct IH as [IH|IH]; [now left|].
    right. apply in_or_app. now right.
Qed.

End Flag.

(** ** Every way a run of [dividir_pdf] ends *)

Section Endings.

Variable w : World.
Variables pdf excel out : str.
Variable p : Z.

Lemma total_steps_nonzero (total : Z) :
  p <> 0 ->
  PDFSplitter.total_steps total p
  = Return (PDFSplitter.total_steps_value total p).
Proof.
  intros Hp. unfold PDFSplitter.total_steps, floordiv, modulo.
  destruct (Z.eqb_spec p 0); [contradiction|reflexivity].
Qed.

Lemma steps_negative (total : Z) :
  p < 0 -> 0 <= total -> PDFSplitter.total_steps_value total p <= 0.
Proof.
  intros Hp Ht. unfold PDFSplitter.total_steps_value.
  pose proof (Z.div_mod total p ltac:(lia)) as D.
  pose proof (Z.mod_neg_bound total p Hp) as B.
  destruct (Z.eqb_spec (total mod p) 0) as [E|E]; simpl; nia.
Qed.

Lemma range_negative (total : Z) :
  p < 0 -> 0 <= total -> range 0 total p = Return [].
Proof.
  intros Hp Ht. unfold range, range_length.
  destruct (Z.eqb_spec p 0); [lia|].
  destruct (Z.ltb_spec 0 p); [lia|].
  destruct (Z.ltb_spec total 0); [lia|reflexivity].
Qed.

(** A run ends in one of seven ways, and never by raising. *)
Lemma run_classified (s : SplitterObject) :
  Outcome.run_end w pdf excel out p s
    (PDFSplitter.dividir_pdf w pdf excel p out s).
Proof.
  destruct (read_excel w excel) as [df|e] eqn:W.
  2:{ rewrite (run_unreadable_workbook w pdf excel out p e s W).
      apply Outcome.end_exception. }
  destruct (PDFSplitter.empty df) eqn:E.
  1:{ rewrite (run_empty w pdf excel out p df W s E).
      apply Outcome.end_invalid. now left. }
  destruct (PDFSplitter.column0_isnull_any df) eqn:N.
  1:{ rewrite (run_null w pdf excel out p df W s E N).
      apply Outcome.end_invalid. now right. }
  destruct (PdfReader w pdf) as [reader|e] eqn:D.
  2:{ rewrite (run_unreadable_document w pdf excel out p df e s W E N D).
      apply Outcome.end_exception. }
  assert (Tn : 0 <= len reader) by (unfold len; lia).
  destruct (Z.lt_trichotomy p 0) as [Hn|[H0|Hp]].
  - unfold PDFSplitter.dividir_pdf, try_except, bind, lift,
      PDFSplitter.validate_excel_data.
    rewrite W, E, N. cbn. rewrite D, total_steps_nonzero by lia.
    pose proof (steps_negative (len reader) Hn Tn) as S0.
    rewrite Z.gtb_ltb.
    destruct (Z.ltb_spec (len (column0 df))
                (PDFSplitter.total_steps_value (len reader) p));
      [unfold len in *; lia|].
    rewrite (range_negative (len reader) Hn Tn). cbn.
    now apply Outcome.end_no_chunk.
  - subst p.
    unfold PDFSplitter.dividir_pdf, try_except, bind, lift,
      PDFSplitter.validate_excel_data.
    rewrite W, E, N. cbn. rewrite D. cbn.
    apply Outcome.end_exception.
  - destruct (Z.lt_ge_cases (len (column0 df))
                (PDFSplitter.total_steps_value (len reader) p)) as [F|F].
    + rewrite (run_few_names w pdf excel out p df reader Hp W E N D s F).
      now apply Outcome.end_few_names.
    + rewrite (run_loop w pdf excel out p df reader Hp W E N D F s).
      pose proof (run_loop_end w out p df reader Hp E F s) as L.
      pose proof (loop_state w reader df p out Hp (has_column df E) F
                    (Z.to_nat (PDFSplitter.total_steps_value (len reader) p))
                    0 s) as St.
      cbv zeta in St.
      assert (Hm : Z.of_nat (0 + Z.to_nat (PDFSplitter.total_steps_value
                                              (len reader) p))
                   <= PDFSplitter.total_steps_value (len reader) p).
      { pose proof (steps_nonneg (len reader) p Hp Tn). lia. }
      specialize (St Hm).
      inversion L as [s1 H|k s1 Hk Hs1 H|k s1 e Hk He H];
        rewrite <- H in St; cbn [fst snd] in St.
      * destruct St as [->|St]; [now apply Outcome.end_completed|].
        exfalso. rewrite <- (app_nil_r (Spec.chunks_done _ _ _ _ _ _ _)) in St.
        revert St. apply done_not_cancelled. intros [].
      * now apply Outcome.end_cancelled.
      * destruct St as [->|St]; [now apply Outcome.end_write_failed|].
        exfalso. revert St. apply done_not_cancelled.
        intros [St|[St|[]]]; discriminate.
Qed.

End Endings.

(** ** Runs whose course is known *)

Section Courses.

Variable w : World.
Variable reader : list page.
Variable df : DataFrame.
Variable p : Z.
Variable out : str.

Hypothesis p_pos : 0 < p.
Hypothesis has_column : columns df <> 0%nat.

Local Abbreviation steps := (PDFSplitter.total_steps_value (len reader) p).

Hypothesis enough_names : steps <= len (column0 df).

(** No click, [k] good writes and then a failed one. *)
Lemma loop_write_fails (k n m : nat) (s : SplitterObject) (e : exception) :
  Z.of_nat (n + m) <= steps ->
  (k < m)%nat ->
  cancel_operation s = false ->
  (forall j, (n <= j <= n + k)%nat -> cancel_click w j = false) ->
  (forall j, (n <= j < n + k)%nat ->
             write w out (Spec.chunk_name df j) (Spec.chunk_pages reader p j)
             = Return tt) ->
  write w out (Spec.chunk_name df (n + k)) (Spec.chunk_pages reader p (n + k))
  = Raise e ->
  for_each (PDFSplitter.bloco w reader df p (len reader) steps out) n
           (List.map (fun i => Z.of_nat i * p) (seq n m)) s
  = (Return (Some false), s,
     Spec.chunks_done reader df p steps out n k
     ++ [LogError (LogErroSalvar (Spec.chunk_name df (n + k)) e);
         ShowError (MsgErroSalvar (Spec.chunk_name df (n + k)) e)]).
Proof.
  revert n m s. induction k as [|k IH]; intros n m s Hm Hk Hs Hno Hw He;
    (destruct m as [|m]; [lia|]);
    cbn [seq List.map for_each]; unfold bind at 1;
    rewrite (bloco_run w reader df p out p_pos has_column enough_names) by lia;
    cbv zeta; rewrite (Hno n) by lia; rewrite Hs.
  - rewrite Nat.add_0_r in *. rewrite He. reflexivity.
  - rewrite (Hw n) by lia.
    replace (n + S k)%nat with (S n + k)%nat in * by lia.
    rewrite (IH (S n) m s); try assumption; try lia.
    + reflexivity.
    + intros j Hj. apply Hno. lia.
    + intros j Hj. apply Hw. lia.
Qed.

(** The flag already set: the first poll ends the loop. *)
Lemma loop_flag_set (n m : nat) (s : SplitterObject) :
  Z.of_nat (n + S m) <= steps ->
  cancel_operation s = true ->
  for_each (PDFSplitter.bloco w reader df p (len reader) steps out) n
           (List.map (fun i => Z.of_nat i * p) (seq n (S m))) s
  = (Return (Some false), s, [LogInfo LogCancelada]).
Proof.
  intros Hm Hs. cbn [seq List.map for_each]. unfold bind at 1.
  rewrite (bloco_run w reader df p out p_pos has_column enough_names) by lia.
  cbv zeta. destruct s as [[|]]; [|discriminate].
  destruct (cancel_click w n); reflexivity.
Qed.

End Courses.

(** ** More on [strip] and on the sanitized names *)

Section Names.

Lemma lstrip_nil (t : str) : lstrip t = [] <-> forallb isspace t = true.
Proof.
  induction t as [|c t IH]; simpl; [tauto|].
  destruct (isspace c); simpl; [exact IH|].
  split; discriminate.
Qed.

Lemma forallb_rev (f : char -> bool) (t : str) :
  forallb f (rev t) = forallb f t.
Proof.
  apply eq_true_iff_eq. rewrite !forallb_forall.
  split; intros H x Hx; apply H; [now apply in_rev in Hx|now apply in_rev].
Qed.

Lemma strip_nil (t : str) : strip t = [] <-> forallb isspace t = true.
Proof.
  unfold strip, rstrip. split.
  - intros H. apply (f_equal (@rev char)) in H.
    rewrite rev_involutive in H. simpl in H.
    apply lstrip_nil in H. rewrite forallb_rev in H.
    destruct (lstrip t) as [|c rest] eqn:E; [now apply lstrip_nil|].
    pose proof (lstrip_head t c rest E) as Hc.
    simpl in H. rewrite Hc in H. discriminate.
  - intros H. apply lstrip_nil in H. now rewrite H.
Qed.

Lemma strip_fixed (t : str) :
  (forall c rest, t = c :: rest -> isspace c = false) ->
  (forall c rest, t = rest ++ [c] -> isspace c = false) ->
  strip t = t.
Proof.
  intros Hh Hl. unfold strip, rstrip.
  rewrite (lstrip_fixed t Hh), (lstrip_fixed (rev t)).
  - apply rev_involutive.
  - intros c rest E. apply (Hl c (rev rest)).
    apply (f_equal (@rev char)) in E. rewrite rev_involutive in E.
    exact E.
Qed.

Lemma sanitize_filename_chars (s : str) (c : char) :
  In c (PDFSplitter.sanitize_filename s) ->
  In c s /\ char_in c PDFSplitter.invalid_chars = false.
Proof.
  unfold PDFSplitter.sanitize_filename. rewrite sub_class_filter.
  intros H. apply strip_incl, filter_In in H. destruct H as [H K].
  split; [exact H|]. now apply negb_true_iff.
Qed.

End Names.

(** ** The sizes of the chunks *)

Lemma chunk_pages_length (reader : list page) (p : Z) (i : nat) :
  0 < p ->
  Z.of_nat i < PDFSplitter.total_steps_value (len reader) p ->
  len (Spec.chunk_pages reader p i) = Z.min p (len reader - Z.of_nat i * p)
  /\ 1 <= len (Spec.chunk_pages reader p i) <= p.
Proof.
  intros Hp Hi.
  pose proof (steps_bounds (len reader) p Hp) as B.
  assert (L : len (Spec.chunk_pages reader p i)
              = Z.min p (len reader - Z.of_nat i * p)).
  { rewrite chunk_pages_block by exact Hp.
    unfold len in *. rewrite length_firstn, length_skipn. nia. }
  split; [exact L|]. rewrite L. nia.
Qed.

(** ** Dialogs in a trace *)

Lemma in_dialogs (ev : event) (t : list event) :
  (exists m, ev = ShowInfo m \/ ev = ShowError m) ->
  In ev t -> In ev (Trace.dialogs t).
Proof.
  intros [m Hm]. induction t as [|x t IH]; [intros []|].
  intros [H|H].
  - subst x. destruct Hm as [-> | ->]; now left.
  - destruct x; simpl; try (right; now apply IH); now apply IH.
Qed.

(** ** [int] after [isdigit] *)

Lemma int_digits_nonneg (s : str) (acc n : Z) :
  0 <= acc -> int_digits acc s = Return n -> 0 <= n.
Proof.
  revert acc. induction s as [|c s IH]; simpl; intros acc Ha H.
  - injection H as <-. exact Ha.
  - destruct (is_ascii_digit c) eqn:D; [|discriminate].
    unfold is_ascii_digit in D. apply andb_true_iff in D.
    destruct D as [D _]. apply N.leb_le in D.
    apply (IH (10 * acc + (Z.of_N c - 48))); [lia|exact H].
Qed.

Lemma int_nonneg (s : str) (n : Z) : int s = Return n -> 0 <= n.
Proof.
  destruct s as [|c s]; [discriminate|]. unfold int.
  destruct (max_str_digits <? len (c :: s)); [discriminate|].
  apply int_digits_nonneg. lia.
Qed.

(** * Further properties: the splitter *)

Ltac observe :=
  rewrite ?written_app, ?dialogs_app, ?logged_app, ?progress_app,
    ?written_done, ?dialogs_done, ?logged_done, ?progress_done;
  cbn [Trace.written Trace.dialogs Trace.logged Trace.progress app fst snd].

(** X2: how a run ends, as the operator sees it.  Every run of
    [dividir_pdf] ends in one of three ways: it returns True, having shown
    no dialog, with the completion as last log line; or it was cancelled:
    it returns False with the flag set, no dialog, and the cancellation as
    last log line; or it returns False after exactly one error dialog. *)
Theorem dividir_pdf_endings (w : World) (pdf excel out : str) (p : Z)
    (s : SplitterObject) :
  let r := PDFSplitter.dividir_pdf w pdf excel p out s in
  (fst (fst r) = Return true
   /\ Trace.dialogs (snd r) = []
   /\ exists before, Trace.logged (snd r) = before ++ [LogConcluido])
  \/ (fst (fst r) = Return false /\ cancel_operation (snd (fst r)) = true
      /\ Trace.dialogs (snd r) = []
      /\ exists before, Trace.logged (snd r) = before ++ [LogCancelada])
  \/ (fst (fst r) = Return false
      /\ exists m, Trace.dialogs (snd r) = [ShowError m]).
Proof.
  cbv zeta.
  destruct (run_classified w pdf excel out p s); cbn [fst snd].
  - right. right. repeat split. eexists. reflexivity.
  - right. right. repeat split. eexists. reflexivity.
  - right. right. repeat split. eexists. reflexivity.
  - left. repeat split. exists []. reflexivity.
  - left. observe. repeat split. eexists. reflexivity.
  - right. left. observe. repeat split; [assumption|]. eexists. reflexivity.
  - right. right. observe. repeat split. eexists. reflexivity.
Qed.

(** X3: partial output is a prefix.  For a readable workbook and document
    and a positive number of pages per file, what a run has written when it
    ends, however it ends, is the first k chunks for some k up to the
    required count, in order, each under the sanitized name of its row and
    in the output folder; k is the required count when the run returns
    True. *)
Theorem partial_output_is_prefix (w : World) (pdf excel out : str) (p : Z)
    (s : SplitterObject) (df : DataFrame) (reader : list page) :
  0 < p ->
  read_excel w excel = Return df ->
  PdfReader w pdf = Return reader ->
  let r := PDFSplitter.dividir_pdf w pdf excel p out s in
  let required := Spec.required_chunk_count (len reader) p in
  exists k,
    (k <= Z.to_nat required)%nat
    /\ Trace.written (snd r)
       = List.map (fun i => (out, Spec.chunk_name df i, Spec.chunk_pages reader p i))
                  (seq 0 k)
    /\ (fst (fst r) = Return true -> k = Z.to_nat required).
Proof.
  intros Hp W D. cbv zeta. rewrite <- (steps_ceiling _ _ Hp).
  destruct (run_classified w pdf excel out p s)
    as [e|m Hm|df' reader' W' D' F| |df' reader' Hp' W' D'
        |df' reader' k s' Hp' W' D' Hk Hs'|df' reader' k e Hp' W' D' Hk He];
    cbn [fst snd];
    try (rewrite W in W'; injection W' as <-);
    try (rewrite D in D'; injection D' as <-).
  - exists 0%nat. repeat split; [lia|discriminate].
  - exists 0%nat. repeat split; [lia|discriminate].
  - exists 0%nat. repeat split; [lia|discriminate].
  - lia.
  - eexists. observe. rewrite app_nil_r. repeat split. lia.
  - exists k. observe. rewrite app_nil_r. repeat split; [lia|discriminate].
  - exists k. observe. rewrite app_nil_r. repeat split; [lia|discriminate].
Qed.

(** X4: no input, no output.  When the workbook or the document cannot be
    read, or the number of pages per file is zero or negative, no document
    is written. *)
Theorem nothing_written_without_inputs (w : World) (pdf excel out : str)
    (p : Z) (s : SplitterObject) :
  p <= 0 \/ (exists e, read_excel w excel = Raise e)
  \/ (exists e, PdfReader w pdf = Raise e) ->
  Trace.written (snd (PDFSplitter.dividir_pdf w pdf excel p out s)) = [].
Proof.
  intros H.
  destruct (run_classified w pdf excel out p s)
    as [e|m Hm|df' reader' W' D' F| |df' reader' Hp' W' D'
        |df' reader' k s' Hp' W' D' Hk Hs'|df' reader' k e Hp' W' D' Hk He];
    cbn [fst snd]; try reflexivity;
    (destruct H as [H|[[e' H]|[e' H]]]; [lia|congruence|congruence]).
Qed.

(** X5: the sizes of the documents written.  In every run, each document
    written holds at least one page and at most [paginas_por_arquivo]
    pages: no empty document is produced, and none exceeds the
    configured size. *)
Theorem written_chunk_sizes (w : World) (pdf excel out : str) (p : Z)
    (s : SplitterObject) :
  Forall (fun c => 1 <= len c <= p)
         (Trace.chunks (snd (PDFSplitter.dividir_pdf w pdf excel p out s))).
Proof.
  assert (G : forall (df : DataFrame) (reader : list page) (k : nat)
                     (tail : list event),
             0 < p ->
             (k <= Z.to_nat (PDFSplitter.total_steps_value (len reader) p))%nat ->
             Trace.written tail = [] ->
             Forall (fun c => 1 <= len c <= p)
               (Trace.chunks
                  (Spec.chunks_done reader df p
                     (PDFSplitter.total_steps_value (len reader) p) out 0 k
                   ++ tail))).
  { intros df reader k tail Hp Hk Ht. unfold Trace.chunks.
    rewrite written_app, written_done, Ht, app_nil_r, map_map.
    apply Forall_forall. intros c Hc. apply in_map_iff in Hc.
    destruct Hc as [i [<- Hi]]. apply in_seq in Hi. cbn [snd].
    apply chunk_pages_length; [exact Hp|lia]. }
  destruct (run_classified w pdf excel out p s)
    as [e|m Hm|df' reader' W' D' F| |df' reader' Hp' W' D'
        |df' reader' k s' Hp' W' D' Hk Hs'|df' reader' k e Hp' W' D' Hk He];
    cbn [fst snd]; try (now constructor); apply G; try assumption;
    try reflexivity; lia.
Qed.

(** X6: the names of the documents written.  In every run, each document
    is written in the output folder given, under a name that ends in
    ".pdf" and whose stem holds none of the nine characters of the pattern
    (in particular neither slash nor backslash). *)
Theorem written_names_are_legal (w : World) (pdf excel out : str) (p : Z)
    (s : SplitterObject) :
  Forall (fun f : str * str * list page =>
            fst (fst f) = out
            /\ exists stem,
                snd (fst f) = stem ++ lit ".pdf"
                /\ forall c, In c stem ->
                             char_in c PDFSplitter.invalid_chars = false)
         (Trace.written (snd (PDFSplitter.dividir_pdf w pdf excel p out s))).
Proof.
  assert (G : forall (df : DataFrame) (reader : list page) (required : Z)
                     (k : nat) (tail : list event),
             Trace.written tail = [] ->
             Forall (fun f : str * str * list page =>
                       fst (fst f) = out
                       /\ exists stem,
                           snd (fst f) = stem ++ lit ".pdf"
                           /\ forall c, In c stem ->
                                char_in c PDFSplitter.invalid_chars = false)
               (Trace.written
                  (Spec.chunks_done reader df p required out 0 k ++ tail))).
  { intros df reader required k tail Ht.
    rewrite written_app, written_done, Ht, app_nil_r.
    apply Forall_forall. intros f Hf. apply in_map_iff in Hf.
    destruct Hf as [i [<- _]]. cbn [fst snd]. split; [reflexivity|].
    eexists. split; [reflexivity|].
    intros c Hc. now apply sanitize_filename_chars in Hc. }
  destruct (run_classified w pdf excel out p s);
    cbn [fst snd]; try (now constructor); now apply G.
Qed.

(** X8: a failing write.  With valid and sufficient names, a readable
    document, a positive number of pages per file, the flag not set and no
    press on Cancelar, when the write of chunk k fails (the k writes before
    it having succeeded), the run returns False with the flag as it was;
    exactly the first k documents
    are written and stay written, the later chunks are not attempted, and
    the failure is logged and shown once with the name of the file and the
    cause. *)
Theorem run_write_fails (w : World) (pdf excel out : str) (p : Z)
    (s : SplitterObject) (df : DataFrame) (reader : list page) (k : nat)
    (e : exception) :
  0 < p ->
  read_excel w excel = Return df ->
  PDFSplitter.empty df = false ->
  PDFSplitter.column0_isnull_any df = false ->
  PdfReader w pdf = Return reader ->
  Spec.required_chunk_count (len reader) p <= len (column0 df) ->
  Z.of_nat k < Spec.required_chunk_count (len reader) p ->
  cancel_operation s = false ->
  (forall n, (n <= k)%nat -> cancel_click w n = false) ->
  (forall i, (i < k)%nat ->
             write w out (Spec.chunk_name df i) (Spec.chunk_pages reader p i)
             = Return tt) ->
  write w out (Spec.chunk_name df k) (Spec.chunk_pages reader p k) = Raise e ->
  let t := Spec.chunks_done reader df p
             (Spec.required_chunk_count (len reader) p) out 0 k
           ++ [LogError (LogErroSalvar (Spec.chunk_name df k) e);
               ShowError (MsgErroSalvar (Spec.chunk_name df k) e)] in
  PDFSplitter.dividir_pdf w pdf excel p out s = (Return false, s, t)
  /\ Trace.written t
     = List.map (fun i => (out, Spec.chunk_name df i, Spec.chunk_pages reader p i))
                (seq 0 k)
  /\ Trace.dialogs t = [ShowError (MsgErroSalvar (Spec.chunk_name df k) e)].
Proof.
  intros Hp W E N D F Hk Hs Hno Hw He. revert F Hk.
  rewrite <- (steps_ceiling _ _ Hp). intros F Hk t.
  split.
  - rewrite (run_loop w pdf excel out p df reader Hp W E N D F s).
    rewrite (loop_write_fails w reader df p out Hp (has_column df E) F
               k 0 (Z.to_nat (PDFSplitter.total_steps_value (len reader) p))
               s e); try assumption; try reflexivity; try lia.
    + intros j Hj. apply Hno. lia.
    + intros j Hj. apply Hw. lia.
  - unfold t. observe. now rewrite app_nil_r.
Qed.

(** X9: a flag left set.  [dividir_pdf] does not clear the flag itself:
    called with the flag set, on valid and sufficient names and a document
    of at least one page, it returns False at the first poll, having
    written nothing and only logged the cancellation, whatever the operator
    does meanwhile. *)
Theorem flag_left_set (w : World) (pdf excel out : str) (p : Z)
    (s : SplitterObject) (df : DataFrame) (reader : list page) :
  0 < p ->
  read_excel w excel = Return df ->
  PDFSplitter.empty df = false ->
  PDFSplitter.column0_isnull_any df = false ->
  PdfReader w pdf = Return reader ->
  Spec.required_chunk_count (len reader) p <= len (column0 df) ->
  1 <= len reader ->
  cancel_operation s = true ->
  PDFSplitter.dividir_pdf w pdf excel p out s
  = (Return false, s, [LogInfo LogCancelada]).
Proof.
  intros Hp W E N D F H1 Hs. revert F.
  rewrite <- (steps_ceiling _ _ Hp). intros F.
  pose proof (steps_bounds (len reader) p Hp) as B.
  rewrite (run_loop w pdf excel out p df reader Hp W E N D F s).
  destruct (Z.to_nat (PDFSplitter.total_steps_value (len reader) p))
    as [|m] eqn:Em; [nia|].
  rewrite (loop_flag_set w reader df p out Hp (has_column df E) F 0 m s);
    [reflexivity|lia|exact Hs].
Qed.

(** X10: a negative number of pages per file.  Called with a negative
    [paginas_por_arquivo] on valid names and a readable document,
    [dividir_pdf] returns True although it writes nothing: the count of
    files is not positive, so the check of the names passes, and the range
    of the loop is empty. *)
Theorem negative_pages_per_file (w : World) (pdf excel out : str) (p : Z)
    (s : SplitterObject) (df : DataFrame) (reader : list page) :
  p < 0 ->
  read_excel w excel = Return df ->
  PDFSplitter.empty df = false ->
  PDFSplitter.column0_isnull_any df = false ->
  PdfReader w pdf = Return reader ->
  PDFSplitter.dividir_pdf w pdf excel p out s
  = (Return true, s, [LogInfo LogConcluido]).
Proof.
  intros Hn W E N D.
  assert (Tn : 0 <= len reader) by (unfold len; lia).
  unfold PDFSplitter.dividir_pdf, try_except, bind, lift,
    PDFSplitter.validate_excel_data.
  rewrite W, E, N. cbn. rewrite D, (total_steps_nonzero p) by lia.
  pose proof (steps_negative p (len reader) Hn Tn) as S0.
  rewrite Z.gtb_ltb.
  destruct (Z.ltb_spec (len (column0 df))
              (PDFSplitter.total_steps_value (len reader) p));
    [unfold len in *; lia|].
  rewrite (range_negative p (len reader) Hn Tn). reflexivity.
Qed.

(** X11: zero pages per file.  Called with [paginas_por_arquivo] equal to
    zero on valid names and a readable document, [dividir_pdf] raises
    ZeroDivisionError when it counts the files; the outer handler catches
    it: the run returns False, nothing is written, and the error is logged
    and shown once. *)
Theorem division_by_zero_is_caught (w : World) (pdf excel out : str)
    (s : SplitterObject) (df : DataFrame) (reader : list page) :
  read_excel w excel = Return df ->
  PDFSplitter.empty df = false ->
  PDFSplitter.column0_isnull_any df = false ->
  PdfReader w pdf = Return reader ->
  PDFSplitter.total_steps (len reader) 0 = Raise ZeroDivisionError
  /\ PDFSplitter.dividir_pdf w pdf excel 0 out s
     = (Return false, s,
        [LogError (LogErroProcessamento ZeroDivisionError);
         ShowError (MsgErroProcessamento ZeroDivisionError)]).
Proof.
  intros W E N D. split; [reflexivity|].
  unfold PDFSplitter.dividir_pdf, try_except, bind, lift,
    PDFSplitter.validate_excel_data.
  rewrite W, E, N. cbn. rewrite D. reflexivity.
Qed.

(** * Further properties: the shell *)

(** X12: rejected fields.  When one of the three path fields is empty, or
    the field of the pages (typed in ASCII) is not a non-empty run of
    digits, [iniciar_divisao] shows
    one error dialog (the first for an empty path, whatever the pages
    field holds; the second otherwise) and does nothing else: the splitter
    is not called, nothing is written or logged, and the flag is not
    reset. *)
Theorem rejected_fields (w : World) (f : Application.Fields)
    (s : SplitterObject) :
  (forallb Application.truthy
           [Application.pdf_path f; Application.excel_path f;
            Application.output_folder f] = false ->
   Application.iniciar_divisao w f s
   = (Return tt, s, [ShowError MsgCamposVazios]))
  /\ (forallb Application.truthy
              [Application.pdf_path f; Application.excel_path f;
               Application.output_folder f] = true ->
      forallb (fun c => (c <? 128)%N) (Application.paginas_por_arquivo f) = true ->
      isdigit (Application.paginas_por_arquivo f) = false ->
      Application.iniciar_divisao w f s
      = (Return tt, s, [ShowError MsgNaoNumerico])).
Proof.
  split.
  - intros H.
    unfold Application.iniciar_divisao, Application.validar_campos, bind.
    rewrite H. reflexivity.
  - intros H _ D.
    unfold Application.iniciar_divisao, Application.validar_campos, bind.
    rewrite H, D. reflexivity.
Qed.

(** X13: a press on Cancelar before the run is forgotten.  With accepted
    fields, [iniciar_divisao] clears the flag before it calls the splitter:
    pressing Cancelar and then Iniciar gives the same run, with the same
    trace and the same final state, as pressing Iniciar alone. *)
Theorem stale_cancel_is_cleared (w : World) (f : Application.Fields)
    (s : SplitterObject) :
  forallb Application.truthy
          [Application.pdf_path f; Application.excel_path f;
           Application.output_folder f] = true ->
  isdigit (Application.paginas_por_arquivo f) = true ->
  bind Janela.cancelar_operacao (fun _ => Application.iniciar_divisao w f) s
  = Application.iniciar_divisao w f s.
Proof.
  intros H D.
  assert (I : forall s0 s1,
             Application.iniciar_divisao w f s0
             = Application.iniciar_divisao w f s1).
  { intros s0 s1.
    unfold Application.iniciar_divisao, Application.validar_campos, bind,
      set_cancel_operation.
    rewrite H, D. reflexivity. }
  unfold bind at 1, Janela.cancelar_operacao, set_cancel_operation.
  rewrite (I {| cancel_operation := true |} s).
  destruct (Application.iniciar_divisao w f s) as [[r s'] t]. reflexivity.
Qed.

Ltac observe_in H :=
  rewrite ?written_app, ?dialogs_app, ?logged_app, ?progress_app,
    ?written_done, ?dialogs_done, ?logged_done, ?progress_done in H;
  cbn [Trace.written Trace.dialogs Trace.logged Trace.progress app fst snd] in H.

(** X14: the dialogs of a run started from the shell.  With accepted
    fields whose pages text [int] converts, [iniciar_divisao] returns.  If
    the flag is not set when it returns, the operator has seen either the
    success dialog alone, or exactly two error dialogs, the one naming the
    cause followed by the general one.  If the flag is set, the general
    error dialog has not been shown. *)
Theorem closing_dialogs (w : World) (f : Application.Fields)
    (s : SplitterObject) (p : Z) :
  forallb Application.truthy
          [Application.pdf_path f; Application.excel_path f;
           Application.output_folder f] = true ->
  isdigit (Application.paginas_por_arquivo f) = true ->
  int (Application.paginas_por_arquivo f) = Return p ->
  let r := Application.iniciar_divisao w f s in
  fst (fst r) = Return tt
  /\ (cancel_operation (snd (fst r)) = false ->
      Trace.dialogs (snd r) = [ShowInfo MsgConcluido]
      \/ exists m,
          Trace.dialogs (snd r) = [ShowError m; ShowError MsgOcorreuErro])
  /\ (cancel_operation (snd (fst r)) = true ->
      ~ In (ShowError MsgOcorreuErro) (Trace.dialogs (snd r))).
Proof.
  intros Hf Hd Hv. cbv zeta.
  rewrite (iniciar_divisao_run w f p Hf Hd Hv s).
  destruct (run_classified w (Application.pdf_path f) (Application.excel_path f)
              (Application.output_folder f) p {| cancel_operation := false |})
    as [e|m Hm|df' reader' W' D' F| |df' reader' Hp' W' D'
        |df' reader' k s' Hp' W' D' Hk Hs'|df' reader' k e Hp' W' D' Hk He];
    cbn [cancel_operation fst snd]; try rewrite Hs'; cbn [fst snd];
    (split; [reflexivity|]); observe;
    (split; [intros Hflag|intros Hflag; try discriminate]).
  - right. eexists. reflexivity.
  - right. eexists. reflexivity.
  - right. eexists. reflexivity.
  - now left.
  - now left.
  - congruence.
  - intros [].
  - right. eexists. reflexivity.
Qed.

(** X15: the success dialog is earned.  With accepted fields, when the
    dialog of success is shown, the workbook and the document were read,
    the number of pages per file is positive, and every chunk was written:
    the documents written are, in order, all the chunks of the document
    under the sanitized names of their rows. *)
Theorem success_dialog_means_all_written (w : World) (f : Application.Fields)
    (s : SplitterObject) (p : Z) :
  forallb Application.truthy
          [Application.pdf_path f; Application.excel_path f;
           Application.output_folder f] = true ->
  isdigit (Application.paginas_por_arquivo f) = true ->
  int (Application.paginas_por_arquivo f) = Return p ->
  In (ShowInfo MsgConcluido) (snd (Application.iniciar_divisao w f s)) ->
  exists df reader,
    read_excel w (Application.excel_path f) = Return df
    /\ PdfReader w (Application.pdf_path f) = Return reader
    /\ 0 < p
    /\ Trace.written (snd (Application.iniciar_divisao w f s))
       = List.map (fun i => (Application.output_folder f,
                             Spec.chunk_name df i,
                             Spec.chunk_pages reader p i))
           (seq 0 (Z.to_nat (Spec.required_chunk_count (len reader) p))).
Proof.
  intros Hf Hd Hv. pose proof (int_nonneg _ _ Hv) as P0.
  rewrite (iniciar_divisao_run w f p Hf Hd Hv s).
  destruct (run_classified w (Application.pdf_path f) (Application.excel_path f)
              (Application.output_folder f) p {| cancel_operation := false |})
    as [e|m Hm|df' reader' W' D' F| |df' reader' Hp' W' D'
        |df' reader' k s' Hp' W' D' Hk Hs'|df' reader' k e Hp' W' D' Hk He];
    cbn [cancel_operation fst snd]; try rewrite Hs'; cbn [fst snd];
    intros Hin; try lia;
    try (apply (in_dialogs _ _ (ex_intro _ MsgConcluido (or_introl eq_refl)))
           in Hin; observe_in Hin; simpl in Hin; intuition discriminate).
  exists df', reader'. repeat split; try assumption.
  observe. rewrite !app_nil_r. now rewrite (steps_ceiling _ _ Hp').
Qed.

(** * Further properties: the names *)

(** X16: the names that sanitizing leaves alone.  [sanitize_filename]
    returns its argument unchanged exactly when the argument holds none of
    the nine characters and neither starts nor ends with whitespace. *)
Theorem sanitize_filename_fixed_points (s : str) :
  PDFSplitter.sanitize_filename s = s
  <-> (forall c, In c s -> char_in c PDFSplitter.invalid_chars = false)
      /\ (forall c rest, s = c :: rest -> isspace c = false)
      /\ (forall c rest, s = rest ++ [c] -> isspace c = false).
Proof.
  split.
  - intros E. repeat split.
    + intros c Hc. rewrite <- E in Hc.
      now apply sanitize_filename_chars in Hc.
    + intros c rest H. rewrite <- E in H.
      unfold PDFSplitter.sanitize_filename in H. exact (strip_head _ _ _ H).
    + intros c rest H. rewrite <- E in H.
      unfold PDFSplitter.sanitize_filename in H. exact (strip_last _ _ _ H).
  - intros [Hc [Hh Hl]]. unfold PDFSplitter.sanitize_filename.
    rewrite sub_class_filter, filter_fixed.
    + now apply strip_fixed.
    + intros x Hx. now rewrite (Hc x Hx).
Qed.

(** X17: the names that sanitizing empties.  [sanitize_filename] returns
    the empty string exactly when every character of the name is one of the
    nine characters or whitespace; the chunk of such a row is written under
    the bare name ".pdf". *)
Theorem sanitize_filename_empty (s : str) :
  (PDFSplitter.sanitize_filename s = []
   <-> forall c, In c s ->
                 char_in c PDFSplitter.invalid_chars = true \/ isspace c = true)
  /\ (PDFSplitter.sanitize_filename s = [] ->
      forall (cells : list cell) (i : nat),
        nth i cells None = Some s ->
        Spec.chunk_name {| columns := 1; column0 := cells |} i = lit ".pdf").
Proof.
  split.
  - unfold PDFSplitter.sanitize_filename.
    rewrite sub_class_filter, strip_nil, forallb_forall. split.
    + intros H c Hc.
      destruct (char_in c PDFSplitter.invalid_chars) eqn:K; [now left|].
      right. apply H. apply filter_In. now rewrite K.
    + intros H c Hc. apply filter_In in Hc. destruct Hc as [Hc K].
      destruct (H c Hc) as [I|I]; [|exact I].
      rewrite I in K. discriminate.
  - intros E cells i Hi. unfold Spec.chunk_name. cbn [column0].
    rewrite Hi. cbn [PDFSplitter.str_of_cell]. now rewrite E.
Qed.

(** * Further properties: the window *)

Lemma startswith_spec (prefix s : str) :
  Janela.startswith s prefix = true <-> exists rest, s = prefix ++ rest.
Proof.
  revert s. induction prefix as [|c prefix IH]; intros s; simpl.
  - split; [intros _; now exists s|reflexivity].
  - destruct s as [|d s].
    + split; [discriminate|intros [rest H]; discriminate].
    + rewrite andb_true_iff, N.eqb_eq, IH. split.
      * intros [-> [rest ->]]. now exists rest.
      * intros [rest H]. injection H as -> ->. split; [reflexivity|now exists rest].
Qed.

Lemma endswith_spec (suffix s : str) :
  Janela.endswith s suffix = true <-> exists stem, s = stem ++ suffix.
Proof.
  unfold Janela.endswith. rewrite startswith_spec. split.
  - intros [rest H]. exists (rev rest).
    apply (f_equal (@rev char)) in H.
    now rewrite rev_involutive, rev_app_distr, rev_involutive in H.
  - intros [stem ->]. exists (rev stem). apply rev_app_distr.
Qed.

Lemma xlsx_is_not_pdf (s : str) :
  Janela.endswith s (lit ".xlsx") = true ->
  Janela.endswith s (lit ".pdf") = false.
Proof.
  unfold Janela.endswith.
  change (rev (lit ".xlsx")) with [120; 115; 108; 120; 46]%N.
  change (rev (lit ".pdf")) with [102; 100; 112; 46]%N.
  destruct (rev s) as [|c r]; [discriminate|].
  cbn [Janela.startswith].
  destruct (N.eqb_spec c 120) as [->|]; [|discriminate].
  reflexivity.
Qed.

(** X18: a file dropped on the window.  [arrastar_arquivo] never touches
    the output folder nor the number of pages.  A dropped text that, once
    trimmed, ends in ".pdf" becomes the PDF path and leaves the workbook
    path alone; one that ends in ".xlsx" becomes the workbook path and
    leaves the PDF path alone; any other text (an upper-case extension
    included, the test being exact) changes nothing.  Dropping the same
    text again changes nothing more. *)
Theorem arrastar_arquivo_fields (data : str) (f : Application.Fields) :
  let f' := Janela.arrastar_arquivo data f in
  Application.output_folder f' = Application.output_folder f
  /\ Application.paginas_por_arquivo f' = Application.paginas_por_arquivo f
  /\ ((exists stem, strip data = stem ++ lit ".pdf") ->
      Application.pdf_path f' = strip data
      /\ Application.excel_path f' = Application.excel_path f)
  /\ ((exists stem, strip data = stem ++ lit ".xlsx") ->
      Application.excel_path f' = strip data
      /\ Application.pdf_path f' = Application.pdf_path f)
  /\ (~ (exists stem, strip data = stem ++ lit ".pdf") ->
      ~ (exists stem, strip data = stem ++ lit ".xlsx") ->
      f' = f)
  /\ Janela.arrastar_arquivo data f' = f'.
Proof.
  cbv zeta. unfold Janela.arrastar_arquivo.
  destruct (Janela.endswith (strip data) (lit ".pdf")) eqn:P;
    [|destruct (Janela.endswith (strip data) (lit ".xlsx")) eqn:X];
    cbn [Application.pdf_path Application.excel_path
         Application.output_folder Application.paginas_por_arquivo];
    repeat match goal with |- _ /\ _ => split end;
    try reflexivity;
    try (intros Hpdf Hxlsx; exfalso;
         (apply Hpdf + apply Hxlsx); now apply endswith_spec);
    try (intros H; apply endswith_spec in H;
         first [congruence
               |apply xlsx_is_not_pdf in H; congruence
               |split; reflexivity]).
Qed.

(** X19: the window is centred.  The geometry that [centralizar_janela]
    requests keeps the size of the window and places it so that the left
    and right margins differ by at most one pixel, and so do the top and
    bottom ones; a window that fits the screen is placed wholly inside
    it. *)
Theorem centralizar_janela_centred (largura altura screenwidth screenheight : Z) :
  exists x y,
    Janela.centralizar_janela largura altura screenwidth screenheight
    = Janela.geometry largura altura x y
    /\ -1 <= (screenwidth - largura - x) - x <= 1
    /\ -1 <= (screenheight - altura - y) - y <= 1
    /\ (0 <= largura <= screenwidth -> 0 <= x /\ x + largura <= screenwidth)
    /\ (0 <= altura <= screenheight -> 0 <= y /\ y + altura <= screenheight).
Proof.
  exists (screenwidth / 2 - largura / 2), (screenheight / 2 - altura / 2).
  split; [reflexivity|].
  pose proof (Z.div_mod screenwidth 2 ltac:(lia)).
  pose proof (Z.mod_pos_bound screenwidth 2 ltac:(lia)).
  pose proof (Z.div_mod largura 2 ltac:(lia)).
  pose proof (Z.mod_pos_bound largura 2 ltac:(lia)).
  pose proof (Z.div_mod screenheight 2 ltac:(lia)).
  pose proof (Z.mod_pos_bound screenheight 2 ltac:(lia)).
  pose proof (Z.div_mod altura 2 ltac:(lia)).
  pose proof (Z.mod_pos_bound altura 2 ltac:(lia)).
  repeat split; lia.
Qed.

(** * The further properties on sample runs *)

(** Ten pages by three, cancelled after two chunks: a prefix of two. *)
Lemma partial_output_is_prefix_sample :
  let w := Sample.world 10 ["A"; "B"; "C"; "D"]%string (Sample.after 2) in
  let r := PDFSplitter.dividir_pdf w (lit "doc.pdf") (lit "nomes.xlsx") 3
             (lit "out") Sample.idle in
  exists k,
    (k <= 4)%nat
    /\ Trace.written (snd r)
       = List.map (fun i => (lit "out",
                             Spec.chunk_name
                               (Sample.names ["A"; "B"; "C"; "D"]%string) i,
                             Spec.chunk_pages (Sample.document 10) 3 i))
                  (seq 0 k).
Proof.
  intros w r.
  destruct (partial_output_is_prefix w (lit "doc.pdf") (lit "nomes.xlsx")
              (lit "out") 3 Sample.idle
              (Sample.names ["A"; "B"; "C"; "D"]%string) (Sample.document 10))
    as [k [Hk [Hw _]]]; [lia|reflexivity|reflexivity|].
  exists k. split; [exact Hk|exact Hw].
Defined.

(** Zero pages per file: nothing is written. *)
Lemma nothing_written_without_inputs_sample :
  Trace.written
    (snd (PDFSplitter.dividir_pdf
            (Sample.world 10 ["A"; "B"; "C"; "D"]%string Sample.never)
            (lit "doc.pdf") (lit "nomes.xlsx") 0 (lit "out") Sample.idle))
  = [].
Proof.
  apply nothing_written_without_inputs. left. lia.
Defined.

(** The same with a disk that refuses the third document. *)
Lemma run_write_fails_sample :
  let df := Sample.names ["A"; "B"; "C"; "D"]%string in
  let full := Failure (lit "No space left on device") in
  let w := {| read_excel := fun _ => Return df;
              PdfReader := fun _ => Return (Sample.document 10);
              write := fun _ _ pages =>
                         match pages with
                         | PageObject 6 :: _ => Raise full
                         | _ => Return tt
                         end;
              cancel_click := Sample.never |} in
  exists t,
    PDFSplitter.dividir_pdf w (lit "doc.pdf") (lit "nomes.xlsx") 3 (lit "out")
      Sample.idle
    = (Return false, Sample.idle, t)
    /\ List.length (Trace.written t) = 2%nat
    /\ Trace.dialogs t = [ShowError (MsgErroSalvar (lit "C.pdf") full)].
Proof.
  intros df full w.
  destruct (run_write_fails w (lit "doc.pdf") (lit "nomes.xlsx") (lit "out") 3
              Sample.idle df (Sample.document 10) 2%nat full)
    as [R [W D]]; try reflexivity; try lia.
  - intros i Hi. destruct i as [|[|i]]; [reflexivity|reflexivity|lia].
  - eexists. split; [exact R|]. split; [now rewrite W|exact D].
Defined.

(** A direct call with the flag set. *)
Lemma flag_left_set_sample :
  PDFSplitter.dividir_pdf
    (Sample.world 10 ["A"; "B"; "C"; "D"]%string Sample.never)
    (lit "doc.pdf") (lit "nomes.xlsx") 3 (lit "out")
    {| cancel_operation := true |}
  = (Return false, {| cancel_operation := true |}, [LogInfo LogCancelada]).
Proof.
  apply (flag_left_set _ _ _ _ 3 _
           (Sample.names ["A"; "B"; "C"; "D"]%string) (Sample.document 10));
    first [reflexivity | vm_compute; discriminate].
Defined.

(** A direct call with minus three pages per file. *)
Lemma negative_pages_per_file_sample :
  PDFSplitter.dividir_pdf
    (Sample.world 10 ["A"]%string Sample.never)
    (lit "doc.pdf") (lit "nomes.xlsx") (-3) (lit "out") Sample.idle
  = (Return true, Sample.idle, [LogInfo LogConcluido]).
Proof.
  apply (negative_pages_per_file _ _ _ _ (-3) _ (Sample.names ["A"]%string)
           (Sample.document 10)); try reflexivity; lia.
Defined.

(** A direct call with zero pages per file. *)
Lemma division_by_zero_is_caught_sample :
  PDFSplitter.dividir_pdf
    (Sample.world 10 ["A"]%string Sample.never)
    (lit "doc.pdf") (lit "nomes.xlsx") 0 (lit "out") Sample.idle
  = (Return false, Sample.idle,
     [LogError (LogErroProcessamento ZeroDivisionError);
      ShowError (MsgErroProcessamento ZeroDivisionError)]).
Proof.
  apply (proj2 (division_by_zero_is_caught
                  (Sample.world 10 ["A"]%string Sample.never)
                  (lit "doc.pdf") (lit "nomes.xlsx") (lit "out") Sample.idle
                  (Sample.names ["A"]%string) (Sample.document 10)
                  eq_refl eq_refl eq_refl eq_refl)).
Defined.

(** The pages field left empty, and the folder left empty. *)
Lemma rejected_fields_sample :
  let w := Sample.world 10 ["A"; "B"; "C"; "D"]%string Sample.never in
  let no_folder :=
    {| Application.pdf_path := lit "doc.pdf";
       Application.excel_path := lit "nomes.xlsx";
       Application.output_folder := [];
       Application.paginas_por_arquivo := lit "3" |} in
  Application.iniciar_divisao w (Sample.fields "") {| cancel_operation := true |}
  = (Return tt, {| cancel_operation := true |}, [ShowError MsgNaoNumerico])
  /\ Application.iniciar_divisao w no_folder Sample.idle
     = (Return tt, Sample.idle, [ShowError MsgCamposVazios]).
Proof.
  intros w no_folder. split.
  - apply (proj2 (rejected_fields w (Sample.fields "")
                    {| cancel_operation := true |})); reflexivity.
  - apply (proj1 (rejected_fields w no_folder Sample.idle)); reflexivity.
Defined.

(** Cancelar, then Iniciar. *)
Lemma stale_cancel_is_cleared_sample :
  let w := Sample.world 10 ["A"; "B"; "C"; "D"]%string Sample.never in
  bind Janela.cancelar_operacao
       (fun _ => Application.iniciar_divisao w (Sample.fields "3")) Sample.idle
  = Application.iniciar_divisao w (Sample.fields "3") Sample.idle.
Proof.
  intros w. apply stale_cancel_is_cleared; reflexivity.
Defined.

(** The dialogs of a run with too few names. *)
Lemma closing_dialogs_sample :
  let w := Sample.world 10 ["A"; "B"; "C"]%string Sample.never in
  let r := Application.iniciar_divisao w (Sample.fields "3") Sample.idle in
  fst (fst r) = Return tt
  /\ (Trace.dialogs (snd r) = [ShowInfo MsgConcluido]
      \/ exists m,
          Trace.dialogs (snd r) = [ShowError m; ShowError MsgOcorreuErro]).
Proof.
  intros w r.
  destruct (closing_dialogs w (Sample.fields "3") Sample.idle 3
              eq_refl eq_refl eq_refl) as [R [D _]].
  split; [exact R|]. apply D. reflexivity.
Defined.

(** The dialog of success after ten pages by five. *)
Lemma success_dialog_means_all_written_sample :
  let w := Sample.world 10 ["A"; "B"]%string Sample.never in
  exists df reader,
    read_excel w (lit "nomes.xlsx") = Return df
    /\ PdfReader w (lit "doc.pdf") = Return reader
    /\ List.length
         (Trace.written
            (snd (Application.iniciar_divisao w (Sample.fields "5")
                    Sample.idle)))
       = 2%nat.
Proof.
  intros w.
  destruct (success_dialog_means_all_written w (Sample.fields "5") Sample.idle 5)
    as [df [reader [W [D [_ _]]]]]; try reflexivity.
  - vm_compute. repeat (first [left; reflexivity | right]).
  - exists df, reader. split; [exact W|]. split; [exact D|reflexivity].
Defined.

(** A clean name, and a name made of nothing that is kept. *)
Lemma sanitize_filename_fixed_points_sample :
  PDFSplitter.sanitize_filename (lit "Q1 2024") = lit "Q1 2024"
  /\ char_in 81%N PDFSplitter.invalid_chars = false.
Proof.
  split; [reflexivity|].
  apply (proj1 (proj1 (sanitize_filename_fixed_points (lit "Q1 2024")) eq_refl)).
  left. reflexivity.
Defined.

Lemma sanitize_filename_empty_sample :
  PDFSplitter.sanitize_filename (lit " ?/* ") = []
  /\ (char_in 63%N PDFSplitter.invalid_chars = true \/ isspace 63%N = true).
Proof.
  split; [reflexivity|].
  apply (proj1 (proj1 (sanitize_filename_empty (lit " ?/* "))) eq_refl).
  right. left. reflexivity.
Defined.

(** A PDF dropped on the window, with a line end after its path. *)
Lemma arrastar_arquivo_fields_sample :
  let data := lit "/home/ana/doc.pdf" ++ [10%N] in
  let f' := Janela.arrastar_arquivo data (Sample.fields "3") in
  Application.pdf_path f' = lit "/home/ana/doc.pdf"
  /\ Application.excel_path f' = lit "nomes.xlsx".
Proof.
  intros data f'.
  apply (proj1 (proj2 (proj2 (arrastar_arquivo_fields data (Sample.fields "3"))))).
  exists (lit "/home/ana/doc"). reflexivity.
Defined.

(** A window of 400 by 300 on a screen of 1920 by 1080. *)
Lemma centralizar_janela_centred_sample :
  exists x y,
    Janela.centralizar_janela 400 300 1920 1080 = Janela.geometry 400 300 x y
    /\ 0 <= x /\ x + 400 <= 1920 /\ 0 <= y /\ y + 300 <= 1080.
Proof.
  destruct (centralizar_janela_centred 400 300 1920 1080)
    as [x [y [G [_ [_ [X Y]]]]]].
  exists x, y. split; [exact G|].
  destruct (X ltac:(lia)) as [X0 X1]. destruct (Y ltac:(lia)) as [Y0 Y1].
  repeat split; assumption.
Defined.

(** * Further properties: colliding names *)

(** X20: two rows with the same sanitized name.  Nothing in the splitter
    compares the names: on a successful run, when the rows i and j (i
    before j) sanitize to the same name, chunk i and then chunk j are
    written to the same path of the output folder, and no dialog reports
    it. *)
Theorem colliding_names_share_a_path (w : World) (pdf excel out : str)
    (p : Z) (s s' : SplitterObject) (t : list event) (df : DataFrame)
    (reader : list page) (i j : nat) :
  0 < p ->
  read_excel w excel = Return df ->
  PdfReader w pdf = Return reader ->
  PDFSplitter.dividir_pdf w pdf excel p out s = (Return true, s', t) ->
  (i < j < Z.to_nat (Spec.required_chunk_count (len reader) p))%nat ->
  Spec.chunk_name df i = Spec.chunk_name df j ->
  exists nome,
    nth_error (Trace.written t) i = Some (out, nome, Spec.chunk_pages reader p i)
    /\ nth_error (Trace.written t) j
       = Some (out, nome, Spec.chunk_pages reader p j)
    /\ Trace.dialogs t = [].
Proof.
  intros Hp W D R Hij Hn.
  destruct (run_true w pdf excel out p Hp s s' t R)
    as [df' [reader' [W' [D' [_ [_ [_ T]]]]]]].
  rewrite W in W'. injection W' as <-.
  rewrite D in D'. injection D' as <-.
  revert Hij. rewrite <- (steps_ceiling _ _ Hp). intros Hij.
  assert (N : forall k,
             (k < Z.to_nat (PDFSplitter.total_steps_value (len reader) p))%nat ->
             nth_error (Trace.written t) k
             = Some (out, Spec.chunk_name df k, Spec.chunk_pages reader p k)).
  { intros k Hk. rewrite T, written_app, written_done, app_nil_r.
    rewrite nth_error_map, nth_error_seq.
    destruct (Nat.ltb_spec k
                (Z.to_nat (PDFSplitter.total_steps_value (len reader) p)));
      [reflexivity|lia]. }
  exists (Spec.chunk_name df i). repeat split.
  - apply N. lia.
  - rewrite Hn. apply N. lia.
  - rewrite T. observe. reflexivity.
Qed.

(** Two rows that differ by a slash only, ten pages by five. *)
Lemma colliding_names_share_a_path_sample :
  let w := Sample.world 10 ["a/b"; "ab"]%string Sample.never in
  let t := snd (PDFSplitter.dividir_pdf w (lit "doc.pdf") (lit "nomes.xlsx") 5
                  (lit "out") Sample.idle) in
  exists nome,
    nth_error (Trace.written t) 0
    = Some (lit "out", nome, Spec.chunk_pages (Sample.document 10) 5 0)
    /\ nth_error (Trace.written t) 1
       = Some (lit "out", nome, Spec.chunk_pages (Sample.document 10) 5 1).
Proof.
  intros w t.
  destruct (colliding_names_share_a_path w (lit "doc.pdf") (lit "nomes.xlsx")
              (lit "out") 5 Sample.idle Sample.idle t
              (Sample.names ["a/b"; "ab"]%string) (Sample.document 10)
              0%nat 1%nat)
    as [nome [H0 [H1 _]]];
    first [reflexivity | lia | (vm_compute; lia) | idtac].
  exists nome. split; [exact H0|exact H1].
Defined.
